(** * homework_bot: the polling loop of [homework.py] and its validation pipeline

    A shallow embedding of [src/homework.py].  Python values decoded from JSON
    are an inductive type, the functions of the module are Rocq functions in a
    small writer-and-exception monad ([io]) and the body of [main], which
    assigns its local variables, runs in a state layer above it ([proc]).
    Calls that leave the process (the HTTP request, the Telegram bot, the
    clock, the logger, [time.sleep]) are recorded as events; what the outside
    answers is an input of each cycle. *)

From Stdlib Require Import ZArith NArith SpecFloat.
From stdpp Require Import base strings pretty list gmap.

Set Warnings "-register-all".
Open Scope Z_scope.

(** ** Python values *)

(** What [Response.json()] can return, and what the constants of the program
    can hold.  A [dict] keeps its items in insertion order, keys distinct, as
    Python does; [float] is an IEEE 754 binary64 value. *)
Inductive value : Type :=
  | VNone
  | VBool (b : bool)
  | VInt (z : Z)
  | VFloat (f : spec_float)
  | VStr (s : string)
  | VList (l : list value)
  | VDict (d : list (string * value)).

(** [bool(v)]: the truth value Python gives to [v] in [x or y], [if x] and
    [all([...])]. *)
Definition truthy (v : value) : bool :=
  match v with
  | VNone => false
  | VBool b => b
  | VInt z => negb (z =? 0)
  | VFloat (S754_zero _) => false
  | VFloat _ => true
  | VStr s => negb (String.eqb s "")
  | VList l => negb (bool_decide (l = []))
  | VDict d => negb (bool_decide (d = []))
  end.

(** [type(v).__name__] *)
Definition type_name (v : value) : string :=
  match v with
  | VNone => "NoneType"
  | VBool _ => "bool"
  | VInt _ => "int"
  | VFloat _ => "float"
  | VStr _ => "str"
  | VList _ => "list"
  | VDict _ => "dict"
  end.

(** [d.get(k)] on the items of a dict, [None] when the key is absent. *)
Fixpoint dict_lookup (k : string) (d : list (string * value)) : option value :=
  match d with
  | [] => None
  | (k', v) :: d' => if String.eqb k' k then Some v else dict_lookup k d'
  end.

(** [k in d] *)
Definition dict_contains (k : string) (d : list (string * value)) : bool :=
  bool_decide (is_Some (dict_lookup k d)).

(** [all(vs)] *)
Definition py_all (vs : list value) : bool := forallb truthy vs.

(** The double quote character, for the literals that contain one. *)
Definition dq : string := String (Ascii.ascii_of_nat 34) EmptyString.

(** ** What the module imports *)

(** The module [constants] is imported, its text is not part of the sources:
    its names are parameters.  The tokens, the chat id, the endpoint and the
    headers are arbitrary Python values ([None] when an environment variable
    is not set); [HOMEWORK_STATUSES] maps a status to its verdict;
    [RETRY_TIME] is a number of seconds. *)
Class Constants : Type := {
  ENDPOINT : value;
  HEADERS : value;
  HOMEWORK_STATUSES : gmap string string;
  PRACTICUM_TOKEN : value;
  RETRY_TIME : N;
  TELEGRAM_CHAT_ID : value;
  TELEGRAM_TOKEN : value;
}.

(** Modelled from the spec: the classes of the module [exceptions]
    ([EmptyResponse], [GetApiError], [IncorrectApiAnswer], [NoHomeworkInfo],
    [SendMessageFailure], [WrongGetApiStatus]) are imported and their text is
    not part of the sources; they are taken as plain subclasses of
    [Exception], each carrying the message it was built with.  The others are
    Python's own, and what [requests] and [telegram] raise, with their text;
    [InvalidToken] is a subclass of [TelegramError]; [OtherException] is an
    exception of any other subclass of [Exception] (a [RecursionError],
    say), by the name of its class and its text. *)
Inductive exn : Type :=
  | EmptyResponse (msg : string)
  | GetApiError (msg : string)
  | IncorrectApiAnswer (msg : string)
  | NoHomeworkInfo (msg : string)
  | SendMessageFailure (msg : string)
  | WrongGetApiStatus (msg : string)
  | TypeError (msg : string)
  | KeyError (msg : string)
  | AttributeError (msg : string)
  | JSONDecodeError (msg : string)
  | RequestException (msg : string)
  | TelegramError (msg : string)
  | InvalidToken (msg : string)
  | OtherException (class_name msg : string).

(** What Python and the libraries do for the module and is not in the
    sources.  [py_repr] is [repr]: an f-string formats a [str] as itself and
    any other JSON value as its [repr].  [Bot] is the constructor
    [telegram.Bot(token=...)] of line 116: it checks the token before
    anything is sent, by rules that depend on the version of the library,
    and gives [None] when the object is built, the exception it raises
    otherwise. *)
Class Builtins : Type := {
  py_repr : value → string;
  Bot : value → option exn;
}.

Definition py_str `{Builtins} (v : value) : string :=
  match v with
  | VStr s => s
  | _ => py_repr v
  end.

(** ** The text and the classes of the exceptions *)

(** [str(error)]: the message, except for [KeyError], whose text is the
    [repr] of its argument. *)
Definition exn_str `{Builtins} (error : exn) : string :=
  match error with
  | KeyError msg => py_repr (VStr msg)
  | EmptyResponse msg | GetApiError msg | IncorrectApiAnswer msg
  | NoHomeworkInfo msg | SendMessageFailure msg | WrongGetApiStatus msg
  | TypeError msg | AttributeError msg | JSONDecodeError msg
  | RequestException msg | TelegramError msg | InvalidToken msg
  | OtherException _ msg => msg
  end.

Definition is_TelegramError (error : exn) : bool :=
  match error with TelegramError _ | InvalidToken _ => true | _ => false end.

Definition is_JSONDecodeError (error : exn) : bool :=
  match error with JSONDecodeError _ => true | _ => false end.

(** [except Exception]: every exception above is one. *)
Definition is_Exception (error : exn) : bool := true.

(** ** Events and the outside world *)

Inductive level : Type := DEBUG | INFO | ERROR | CRITICAL.

(** What the process does that can be observed from outside, in order. *)
Inductive event : Type :=
  | Log (lvl : level) (msg : string)
  | HttpGet (url headers : value) (params : list (string * value))
  | BotSend (chat_id : value) (text : string)
  | Sleep (seconds : N).

(** The object [requests.get] returns: its status code and what [.json()]
    gives, [None] when the body does not decode. *)
Record response : Type := Response {
  status_code : Z;
  json : option value;
}.

(** What [requests.get] does: raise (with the text of the exception), or
    return a response whose body decodes or fails to decode as JSON, or
    return a response with status [code] on which [.json()] raises [error],
    an exception of any class. *)
Inductive http_reply : Type :=
  | HttpRaises (err : string)
  | HttpReturns (r : response)
  | HttpReturnsBroken (code : Z) (error : exn).

(** The object [requests.get] hands to its caller, by the two uses
    [get_api_answer] makes of it: [.status_code], and [.json()], which
    returns a value or raises. *)
Record reply_object : Type := ReplyObject {
  object_status_code : Z;
  object_json : exn + value;
}.

(** What the Telegram transport does with one [bot.send_message] call:
    [None] when the message is delivered, the text of the [TelegramError]
    otherwise. *)
Definition bot_reply : Type := option string.

(** What the outside answers during one cycle of the loop: the reply to the
    request of line 46, [int(time.time())] should line 43 ask for it, the
    reply to the [bot.send_message] reached from line 132 (status) and to
    the one reached from line 142 (error). *)
Record world : Type := World {
  http : http_reply;
  clock : Z;
  bot_status : bot_reply;
  bot_error : bot_reply;
}.

(** ** The monad of the module's functions: a trace and a result or an
    exception *)

Definition io (A : Type) : Type := list event * (exn + A).

#[global] Instance io_ret : MRet io := λ A x, ([], inr x).

#[global] Instance io_bind : MBind io := λ A B f m,
  match m with
  | (t, inl e) => (t, inl e)
  | (t, inr x) => let '(t', r) := f x in (t ++ t', r)
  end.

Definition raise {A} (e : exn) : io A := ([], inl e).

Definition emit (ev : event) : io unit := ([ev], inr tt).

(** [try: body  except <class> as error: handler error] *)
Definition try_except {A} (body : io A) (catches : exn → bool)
    (handler : exn → io A) : io A :=
  match body with
  | (t, inl e) =>
      if catches e then let '(t', r) := handler e in (t ++ t', r)
      else (t, inl e)
  | (t, inr x) => (t, inr x)
  end.

Definition logger_debug (msg : string) : io unit := emit (Log DEBUG msg).
Definition logger_info (msg : string) : io unit := emit (Log INFO msg).
Definition logger_error (msg : string) : io unit := emit (Log ERROR msg).
Definition logger_critical (msg : string) : io unit := emit (Log CRITICAL msg).

(** [requests.get(url, headers=headers, params=params)] *)
Definition requests_get (w : world) (url headers : value)
    (params : list (string * value)) : io reply_object :=
  emit (HttpGet url headers params);;
  match http w with
  | HttpRaises err => raise (RequestException err)
  | HttpReturns r =>
      mret (ReplyObject (status_code r)
              match json r with
              | Some v => inr v
              | None => inl (JSONDecodeError "Expecting value")
              end)
  | HttpReturnsBroken code error => mret (ReplyObject code (inl error))
  end.

(** [r.json()] *)
Definition response_json (r : reply_object) : io value :=
  match object_json r with
  | inr v => mret v
  | inl error => raise error
  end.

(** [bot.send_message(chat_id=chat_id, text=text)], the transport answering
    [bot]. *)
Definition bot_send_message (bot : bot_reply) (chat_id : value)
    (text : string) : io unit :=
  emit (BotSend chat_id text);;
  match bot with
  | None => mret tt
  | Some err => raise (TelegramError err)
  end.

(** ** The functions of [homework.py] *)

Section Homework.
Context {K : Constants} {B : Builtins}.

(** [send_message(bot, message)], lines 30-38 *)
Definition send_message (bot : bot_reply) (message : string) : io unit :=
  try_except
    (bot_send_message bot TELEGRAM_CHAT_ID message;;
     let msg := "Сообщение " +:+ dq +:+ message +:+ dq
                +:+ " отправлено в Telegram чат" in
     logger_info msg)
    is_TelegramError
    (λ error,
       let msg := "Сбой при отправке сообщения: " +:+ exn_str error in
       raise (SendMessageFailure msg)).

(** [get_api_answer(current_timestamp)], lines 41-62.  The second f-string of
    lines 50-51 is a statement of its own: the status code is not part of
    [message].  When [.json()] raises [JSONDecodeError] the function falls
    off its end and returns [None]; what else [.json()] raises leaves the
    function, the second [try] having no other [except] clause. *)
Definition get_api_answer (w : world) (current_timestamp : value) : io value :=
  let timestamp :=
    if truthy current_timestamp then current_timestamp else VInt (clock w) in
  let params := [("from_date", timestamp)] in
  homework_statuses ←
    try_except
      (homework_statuses ← requests_get w ENDPOINT HEADERS params;
       if negb (object_status_code homework_statuses =? 200) then
         let message := "Статус код ответа на запрос к " +:+ dq
                        +:+ py_str ENDPOINT +:+ dq +:+ " равен" in
         logger_error message;;
         raise (WrongGetApiStatus message)
       else mret homework_statuses)
      is_Exception
      (λ error,
         let message := "Сбой в работе API сервиса: " +:+ exn_str error in
         raise (GetApiError message));
  try_except
    (response_json homework_statuses)
    is_JSONDecodeError
    (λ _,
       let jsn_message := "Ошибка с JSON" in
       logger_error jsn_message;;
       mret VNone).

(** [check_response(response)], lines 65-80 *)
Definition check_response (response : value) : io (list value) :=
  match response with
  | VNone =>
      let message := "Нет данных в ответе сервиса API." in
      raise (EmptyResponse message)
  | VDict d =>
      if negb (dict_contains "homeworks" d)
         || negb (dict_contains "current_date" d) then
        let message := "Получен некорректный ответ от сервиса API." in
        raise (IncorrectApiAnswer message)
      else
        match dict_lookup "homeworks" d with
        | Some (VList homeworks_list) => mret homeworks_list
        | _ =>
            let message := "В ответе сервиса API нет списка домашних работ." in
            raise (TypeError message)
        end
  | _ =>
      let message := "Получен некорректный тип данных от сервиса API." in
      raise (TypeError message)
  end.

(** [obj.get(key)]: a dict answers, with [None] for a key it does not have;
    no other JSON value has the method. *)
Definition py_get (obj : value) (key : string) : io value :=
  match obj with
  | VDict d => mret (default VNone (dict_lookup key d))
  | _ =>
      raise (AttributeError
               ("'" +:+ type_name obj +:+ "' object has no attribute 'get'"))
  end.

(** [HOMEWORK_STATUSES.get(key)]: the keys of the table are strings, so only
    a [str] finds an entry; a list or a dict cannot be hashed. *)
Definition statuses_get (key : value) : io (option string) :=
  match key with
  | VStr s => mret (HOMEWORK_STATUSES !! s)
  | VList _ => raise (TypeError "unhashable type: 'list'")
  | VDict _ => raise (TypeError "unhashable type: 'dict'")
  | _ => mret None
  end.

(** [parse_status(homework)], lines 83-100.  The two [.get] calls come
    first, so [homework] is a dict where the [in] tests are reached. *)
Definition parse_status (homework : value) : io string :=
  homework_name ← py_get homework "homework_name";
  homework_status ← py_get homework "status";
  let d := match homework with VDict d => d | _ => [] end in
  if negb (dict_contains "homework_name" d) then
    let message := "Не найдено имя домашней работы в ответе API." in
    logger_error message;;
    raise (KeyError message)
  else if negb (dict_contains "status" d) then
    let message := "Не найден статус домашней работы в ответе API." in
    logger_error message;;
    raise (KeyError message)
  else
    verdict ← statuses_get homework_status;
    match verdict with
    | None =>
        let message :=
          "Недокументированный статус домашней работы в ответе API." in
        logger_error message;;
        raise (KeyError message)
    | Some verdict =>
        mret ("Изменился статус проверки работы " +:+ dq
              +:+ py_str homework_name +:+ dq +:+ ". " +:+ verdict)
    end.

(** [check_tokens()], lines 103-108 *)
Definition check_tokens : bool :=
  let env_variables_available :=
    py_all [PRACTICUM_TOKEN; TELEGRAM_TOKEN; TELEGRAM_CHAT_ID] in
  env_variables_available.

End Homework.

(** ** The local variables of [main] and the layer that assigns them *)

(** The variables of [main] that live across cycles (the PollState of the
    specification).  [current_timestamp] is whatever the last response had
    under [current_date]. *)
Record locals : Type := Locals {
  current_timestamp : value;
  last_message : option string;
  last_error : option string;
}.

(** A piece of [main]: from the variables, the variables afterwards (also
    when an exception leaves the piece), the trace, and a result or an
    exception. *)
Definition proc (A : Type) : Type := locals → locals * io A.

#[global] Instance proc_ret : MRet proc := λ A x st, (st, mret x).

#[global] Instance proc_bind : MBind proc := λ A B f m st,
  match m st with
  | (st1, (t, inl e)) => (st1, (t, inl e))
  | (st1, (t, inr x)) =>
      let '(st2, (t', r)) := f x st1 in (st2, (t ++ t', r))
  end.

(** A call of a function of the module: it has no access to the variables. *)
Definition call {A} (m : io A) : proc A := λ st, (st, m).

Definition read {A} (field : locals → A) : proc A := λ st, (st, mret (field st)).

Definition assign_current_timestamp (v : value) : proc unit := λ st,
  (Locals v (last_message st) (last_error st), mret tt).

Definition assign_last_message (s : string) : proc unit := λ st,
  (Locals (current_timestamp st) (Some s) (last_error st), mret tt).

Definition assign_last_error (s : string) : proc unit := λ st,
  (Locals (current_timestamp st) (last_message st) (Some s), mret tt).

(** [try: body  except Exception as error: handler error  else: orelse
    finally: final].  The handler and the [else] suite are outside the
    protection of the [except] clause: what they raise leaves the statement,
    after [final] has run. *)
Definition try_except_else_finally {A} (body : proc A)
    (handler : exn → proc unit) (orelse : proc unit) (final : proc unit)
    : proc unit := λ st,
  let '(st1, (t1, r1)) := body st in
  let '(st2, (t2, r2)) :=
    match r1 with
    | inl error => handler error st1
    | inr _ => orelse st1
    end in
  let '(st3, (t3, r3)) := final st2 in
  (st3, (t1 ++ t2 ++ t3,
         match r3 with
         | inl error => inl error
         | inr _ => r2
         end)).

(** [time.sleep(seconds)] *)
Definition time_sleep (seconds : N) : proc unit := call (emit (Sleep seconds)).

Section Main.
Context {K : Constants} {B : Builtins}.

(** The [try] suite of the loop, lines 122-137. *)
Definition try_suite (w : world) : proc unit :=
  ts ← read current_timestamp;
  response ← call (get_api_answer w ts);
  homeworks_list ← call (check_response response);
  homework ←
    match homeworks_list with
    | homework :: _ => mret homework
    | [] =>
        let message := "Не найдено информации о домашней работе." in
        call (logger_info message);;
        call (raise (NoHomeworkInfo message))
    end;
  status_str ← call (parse_status homework);
  last ← read last_message;
  (if bool_decide (Some status_str ≠ last) then
     call (send_message (bot_status w) status_str);;
     assign_last_message status_str
   else
     let message := "Статус домашней работы не изменился." in
     call (logger_debug message));;
  date ← call (py_get response "current_date");
  assign_current_timestamp date.

(** The [except Exception as error] suite, lines 139-143. *)
Definition except_suite (w : world) (error : exn) : proc unit :=
  let message := "Сбой в работе программы: " +:+ exn_str error in
  call (logger_error message);;
  last ← read last_error;
  if bool_decide (Some message ≠ last) then
    call (send_message (bot_error w) message);;
    assign_last_error message
  else mret tt.

(** The [else] suite, lines 145-146. *)
Definition else_suite : proc unit :=
  let message := "Программа отработала без ошибок." in
  call (logger_info message).

(** One turn of [while True], lines 121-148. *)
Definition cycle (w : world) : proc unit :=
  try_except_else_finally
    (try_suite w) (except_suite w) else_suite (time_sleep RETRY_TIME).

(** [while True]: one cycle per world the outside provides.  The loop has no
    exit of its own: with the worlds used up it is still polling. *)
Fixpoint poll_loop (ws : list world) : proc unit :=
  match ws with
  | [] => mret tt
  | w :: ws' => cycle w;; poll_loop ws'
  end.

(** How a run of [main] over finitely many cycles stands at its end:
    stopped by [sys.exit], ended by the exception of line 116 before its
    variables were assigned, ended by an exception that left the loop, or
    still polling. *)
Inductive ending : Type :=
  | SysExit (arg : string)
  | NoBot (error : exn)
  | Unhandled (error : exn) (st : locals)
  | Polling (st : locals).

(** [main()], lines 111-148, [start] being [int(time.time())] at line 117.
    Line 116 is outside any [try]: what [Bot] raises ends [main]. *)
Definition main (start : Z) (ws : list world) : list event * ending :=
  if negb check_tokens then
    ([Log CRITICAL "Недоступна одна или несколько переменных окружения."],
     SysExit "Работа программы завершена.")
  else
    match Bot TELEGRAM_TOKEN with
    | Some error => ([], NoBot error)
    | None =>
        let current_timestamp := VInt start in
        let last_message := None in
        let last_error := None in
        let '(st, (t, r)) :=
          poll_loop ws (Locals current_timestamp last_message last_error) in
        (t, match r with
            | inl error => Unhandled error st
            | inr _ => Polling st
            end)
    end.

End Main.

(** ** Sample inputs *)

(** A [repr] for the examples: right on [None], booleans, integers and on
    strings without quotes, backslashes or control characters. *)
Definition sample_repr (v : value) : string :=
  match v with
  | VNone => "None"
  | VBool true => "True"
  | VBool false => "False"
  | VInt z => pretty z
  | VStr s => "'" +:+ s +:+ "'"
  | _ => "<object>"
  end.

Definition is_digit (a : Ascii.ascii) : bool :=
  (48 <=? Ascii.nat_of_ascii a)%nat && (Ascii.nat_of_ascii a <=? 57)%nat.

(** [str.isspace] on the characters of ASCII. *)
Definition is_space (a : Ascii.ascii) : bool :=
  (Ascii.nat_of_ascii a =? 32)%nat
  || ((9 <=? Ascii.nat_of_ascii a)%nat && (Ascii.nat_of_ascii a <=? 13)%nat).

(** [s.partition(':')[0]], with whether the colon was found. *)
Fixpoint before_colon (s : string) : string * bool :=
  match s with
  | EmptyString => (EmptyString, false)
  | String a s' =>
      if (Ascii.nat_of_ascii a =? 58)%nat then (EmptyString, true)
      else let '(head, found) := before_colon s' in (String a head, found)
  end.

(** A [Bot] constructor for the examples, after the token check of
    python-telegram-bot 13: it refuses a token that has white space, has no
    colon, or whose part before the colon is not made of at least three
    digits.  A token that is not a string cannot be iterated. *)
Definition sample_Bot (token : value) : option exn :=
  match token with
  | VStr s =>
      let '(head, found) := before_colon s in
      if existsb is_space (String.list_ascii_of_string s)
         || negb found
         || negb (forallb is_digit (String.list_ascii_of_string head))
         || (String.length head <? 3)%nat
      then Some (InvalidToken "Invalid token")
      else None
  | _ => Some (TypeError ("'" +:+ type_name token +:+ "' object is not iterable"))
  end.

Definition sample_builtins : Builtins :=
  {| py_repr := sample_repr; Bot := sample_Bot |}.

Definition sample_statuses : gmap string string :=
  {[ "approved" := "Работа проверена: ревьюеру всё понравилось. Ура!";
     "reviewing" := "Работа взята на проверку ревьюером.";
     "rejected" := "Работа проверена: у ревьюера есть замечания." ]}.

Definition sample_endpoint : value :=
  VStr "https://practicum.yandex.ru/api/user_api/homework_statuses/".

Definition sample_headers : value :=
  VDict [("Authorization", VStr "OAuth y0_token")].

(** A complete configuration. *)
Definition sample_constants : Constants := {|
  ENDPOINT := sample_endpoint;
  HEADERS := sample_headers;
  HOMEWORK_STATUSES := sample_statuses;
  PRACTICUM_TOKEN := VStr "y0_token";
  RETRY_TIME := 600%N;
  TELEGRAM_CHAT_ID := VStr "123456";
  TELEGRAM_TOKEN := VStr "1234:abcd";
|}.

(** The same with the endpoint and the headers not set. *)
Definition no_endpoint_constants : Constants := {|
  ENDPOINT := VNone;
  HEADERS := VNone;
  HOMEWORK_STATUSES := sample_statuses;
  PRACTICUM_TOKEN := VStr "y0_token";
  RETRY_TIME := 600%N;
  TELEGRAM_CHAT_ID := VStr "123456";
  TELEGRAM_TOKEN := VStr "1234:abcd";
|}.

(** The same as [sample_constants] with the API token not set. *)
Definition no_token_constants : Constants := {|
  ENDPOINT := sample_endpoint;
  HEADERS := VDict [("Authorization", VStr "OAuth None")];
  HOMEWORK_STATUSES := sample_statuses;
  PRACTICUM_TOKEN := VNone;
  RETRY_TIME := 600%N;
  TELEGRAM_CHAT_ID := VStr "123456";
  TELEGRAM_TOKEN := VStr "1234:abcd";
|}.

Definition proj1_approved : value :=
  VDict [("homework_name", VStr "proj1"); ("status", VStr "approved")].

(** [{"homeworks": [{"homework_name": "proj1", "status": "approved"}],
     "current_date": 1000}] *)
Definition approved_body : value :=
  VDict [("homeworks", VList [proj1_approved]); ("current_date", VInt 1000)].

(** [{"homeworks": [], "current_date": 1000}] *)
Definition empty_body : value :=
  VDict [("homeworks", VList []); ("current_date", VInt 1000)].

Definition ok_reply (body : value) : http_reply :=
  HttpReturns (Response 200 (Some body)).

(** The review is approved and Telegram delivers. *)
Definition approved_world : world :=
  World (ok_reply approved_body) 2000 None None.


(** No homework in the answer, Telegram delivers. *)
Definition empty_world : world :=
  World (ok_reply empty_body) 2000 None None.

(** The request fails and Telegram is down too. *)
Definition all_down_world : world :=
  World (HttpRaises "Connection refused") 2000 (Some "Timed out")
        (Some "Timed out").

(** The body of the answer is not JSON. *)
Definition not_json_world : world :=
  World (HttpReturns (Response 200 None)) 2000 None None.

Definition start_locals : locals := Locals (VInt 1500) None None.

(** The status message of [approved_body] under [sample_statuses]. *)
Definition approved_message : string :=
  "Изменился статус проверки работы " +:+ dq +:+ "proj1" +:+ dq
  +:+ ". Работа проверена: ревьюеру всё понравилось. Ура!".

(** The request fails for want of a URL, Telegram delivers. *)
Definition no_scheme_world : world :=
  World (HttpRaises "Invalid URL 'None': No scheme supplied.") 2000 None None.

(** ** Notions the properties are stated with *)

(** The number of [bot.send_message] calls of a trace whose text is [text]. *)
Fixpoint sends (text : string) (t : list event) : nat :=
  match t with
  | [] => 0
  | BotSend _ text' :: t' =>
      ((if String.eqb text' text then 1 else 0) + sends text t')%nat
  | _ :: t' => sends text t'
  end.

(** The [params] of the first request of a trace. *)
Fixpoint requested_params (t : list event) : option (list (string * value)) :=
  match t with
  | [] => None
  | HttpGet _ _ params :: _ => Some params
  | _ :: t' => requested_params t'
  end.

(** The two kinds of message the loop sends, each with its own last-sent
    variable and its own [send_message] call. *)
Inductive category : Type := StatusMessage | ErrorMessage.

Definition last_sent (c : category) (st : locals) : option string :=
  match c with
  | StatusMessage => last_message st
  | ErrorMessage => last_error st
  end.

Definition bot_answer (c : category) (w : world) : bot_reply :=
  match c with
  | StatusMessage => bot_status w
  | ErrorMessage => bot_error w
  end.

Section Notions.
Context {K : Constants} {B : Builtins}.

(** Lines 122-130 of [main] on their own: the response fetched and the
    status message formatted from it, before the comparison of line 131
    ([try_suite_fetch_and_format] below relates it to [try_suite]). *)
Definition fetch_and_format (w : world) (ts : value) : io (value * string) :=
  response ← get_api_answer w ts;
  homeworks_list ← check_response response;
  homework ←
    match homeworks_list with
    | homework :: _ => mret homework
    | [] =>
        let message := "Не найдено информации о домашней работе." in
        logger_info message;;
        raise (NoHomeworkInfo message)
    end;
  status_str ← parse_status homework;
  mret (response, status_str).

(** The message of category [c] that the cycle run in world [w] from the
    variables [st] forms: the [status_str] of line 130, or the [message] of
    line 139 when the [try] suite raises. *)
Definition formatted_message (c : category) (w : world) (st : locals)
    : option string :=
  match c with
  | StatusMessage =>
      match (fetch_and_format w (current_timestamp st)).2 with
      | inr (_, status_str) => Some status_str
      | inl _ => None
      end
  | ErrorMessage =>
      match (try_suite w st).2.2 with
      | inl error => Some ("Сбой в работе программы: " +:+ exn_str error)
      | inr _ => None
      end
  end.

(** The cycle reaches the [send_message] call of category [c] with the text
    [m] and the transport refuses it. *)
Definition send_fails (c : category) (w : world) (st : locals) (m : string)
    : Prop :=
  formatted_message c w st = Some m ∧ Some m ≠ last_sent c st
  ∧ bot_answer c w ≠ None.

(** The cycle reaches the [send_message] call of category [c] with the text
    [m] and the transport delivers it. *)
Definition send_succeeds (c : category) (w : world) (st : locals) (m : string)
    : Prop :=
  formatted_message c w st = Some m ∧ Some m ≠ last_sent c st
  ∧ bot_answer c w = None.

(** [response.get('current_date')] of line 137, the response being a dict
    where that line is reached. *)
Definition current_date_of (response : value) : value :=
  match response with
  | VDict d => default VNone (dict_lookup "current_date" d)
  | _ => VNone
  end.

(** The events lines 122-130 can leave in the trace: the request and the
    logs of the functions called, no message to the bot. *)
Definition fetch_event (ev : event) : Prop :=
  match ev with
  | HttpGet _ _ _ | Log ERROR _ => True
  | Log INFO msg => msg = "Не найдено информации о домашней работе."
  | _ => False
  end.

(** The startup check as the specification words it: the API token, the bot
    token, the chat id and the endpoint with its headers are all there. *)
Definition four_settings_present : bool :=
  py_all [PRACTICUM_TOKEN; TELEGRAM_TOKEN; TELEGRAM_CHAT_ID]
  && (truthy ENDPOINT && truthy HEADERS).

(** The text [send_message] logs once the transport has taken [message]. *)
Definition delivery_log (message : string) : string :=
  "Сообщение " +:+ dq +:+ message +:+ dq +:+ " отправлено в Telegram чат".

(** The log of the [else] suite. *)
Definition clean_cycle_log : event :=
  Log INFO "Программа отработала без ошибок.".

End Notions.

(** ** Further notions: counting the calls that leave the process *)

(** The number of [bot.send_message] calls of a trace, whatever their text. *)
Fixpoint bot_calls (t : list event) : nat :=
  match t with
  | [] => 0
  | BotSend _ _ :: t' => S (bot_calls t')
  | _ :: t' => bot_calls t'
  end.

(** The number of [requests.get] calls of a trace. *)
Fixpoint http_requests (t : list event) : nat :=
  match t with
  | [] => 0
  | HttpGet _ _ _ :: t' => S (http_requests t')
  | _ :: t' => http_requests t'
  end.

(** Further sample inputs. *)

(** The API answers 404 (with a body that is not JSON), Telegram delivers. *)
Definition not_found_world : world :=
  World (HttpReturns (Response 404 None)) 2000 None None.

(** The API answers 500 with a JSON body, Telegram delivers. *)
Definition server_error_world : world :=
  World (HttpReturns (Response 500 (Some approved_body))) 2000 None None.

(** The request fails, Telegram delivers. *)
Definition api_down_world : world :=
  World (HttpRaises "Connection refused") 2000 None None.

Definition proj2_rejected : value :=
  VDict [("homework_name", VStr "proj2"); ("status", VStr "rejected")].

(** Two homeworks in the answer, the approved one first. *)
Definition two_homeworks_body : value :=
  VDict [("homeworks", VList [proj1_approved; proj2_rejected]);
         ("current_date", VInt 1000)].

(** A record with a status the table does not know. *)
Definition proj1_unknown : value :=
  VDict [("homework_name", VStr "proj1"); ("status", VStr "lost")].

(** The variables after [approved_message] was delivered. *)
Definition approved_sent_locals : locals :=
  Locals (VInt 1000) (Some approved_message) None.

(** The same as [sample_constants] with a bot token that is set and is not
    one Telegram gives out. *)
Definition malformed_token_constants : Constants := {|
  ENDPOINT := sample_endpoint;
  HEADERS := sample_headers;
  HOMEWORK_STATUSES := sample_statuses;
  PRACTICUM_TOKEN := VStr "y0_token";
  RETRY_TIME := 600%N;
  TELEGRAM_CHAT_ID := VStr "123456";
  TELEGRAM_TOKEN := VStr "abc";
|}.

(** The answer has status 200 and a body nested so deep that [.json()]
    raises [RecursionError]; Telegram delivers. *)
Definition too_deep_world : world :=
  World (HttpReturnsBroken 200
           (OtherException "RecursionError"
              "maximum recursion depth exceeded while decoding a JSON array"))
        2000 None None.

(** The answer has two homeworks, Telegram delivers. *)
Definition two_homeworks_world : world :=
  World (ok_reply two_homeworks_body) 2000 None None.

(** The error message of a cycle that found no homework. *)
Definition no_homework_message : string :=
  "Сбой в работе программы: Не найдено информации о домашней работе.".

(** The error message of a cycle whose request was refused. *)
Definition api_down_message : string :=
  "Сбой в работе программы: Сбой в работе API сервиса: Connection refused".

(** * Properties *)

(** ** Running the monads *)

Ltac run :=
  cbv beta iota zeta delta
    [mbind io_bind proc_bind call read mret io_ret proc_ret].

Lemma io_bind_trace_Forall {A B} (P : event → Prop) (m : io A) (f : A → io B) :
  Forall P m.1 → (∀ x, Forall P (f x).1) → Forall P (m ≫= f).1.
Proof.
  intros Hm Hf. destruct m as [t [e|x]]; [exact Hm|].
  unfold mbind, io_bind. specialize (Hf x). destruct (f x) as [t' r].
  simpl in *. by apply Forall_app.
Qed.

Lemma io_bind_ok {A B} (m : io A) (f : A → io B) t y :
  m ≫= f = (t, inr y) →
  ∃ t1 x t2, m = (t1, inr x) ∧ f x = (t2, inr y) ∧ t = t1 ++ t2.
Proof.
  destruct m as [t1 [e|x]]; [discriminate|].
  unfold mbind, io_bind. destruct (f x) as [t2 r] eqn:Hf.
  intros [= <- ->]. by exists t1, x, t2.
Qed.

Lemma dict_contains_lookup k d :
  dict_contains k d
  = match dict_lookup k d with Some _ => true | None => false end.
Proof.
  unfold dict_contains. destruct (dict_lookup k d); [|reflexivity].
  apply bool_decide_eq_true. eauto.
Qed.

(** ** The functions of the module, case by case *)

Section Functions.
Context {K : Constants} {B : Builtins}.

Lemma send_message_cases bot message :
  send_message bot message =
    match bot with
    | None =>
        ([BotSend TELEGRAM_CHAT_ID message; Log INFO (delivery_log message)],
         inr tt)
    | Some err =>
        ([BotSend TELEGRAM_CHAT_ID message],
         inl (SendMessageFailure ("Сбой при отправке сообщения: " +:+ err)))
    end.
Proof. destruct bot; reflexivity. Qed.

Lemma get_api_answer_cases w ts :
  let request :=
    HttpGet ENDPOINT HEADERS
      [("from_date", if truthy ts then ts else VInt (clock w))] in
  get_api_answer w ts =
    match http w with
    | HttpRaises err =>
        ([request], inl (GetApiError ("Сбой в работе API сервиса: " +:+ err)))
    | HttpReturns r =>
        if status_code r =? 200 then
          match json r with
          | Some v => ([request], inr v)
          | None => ([request; Log ERROR "Ошибка с JSON"], inr VNone)
          end
        else
          let message := "Статус код ответа на запрос к " +:+ dq
                         +:+ py_str ENDPOINT +:+ dq +:+ " равен" in
          ([request; Log ERROR message],
           inl (GetApiError ("Сбой в работе API сервиса: " +:+ message)))
    | HttpReturnsBroken code error =>
        if code =? 200 then
          if is_JSONDecodeError error
          then ([request; Log ERROR "Ошибка с JSON"], inr VNone)
          else ([request], inl error)
        else
          let message := "Статус код ответа на запрос к " +:+ dq
                         +:+ py_str ENDPOINT +:+ dq +:+ " равен" in
          ([request; Log ERROR message],
           inl (GetApiError ("Сбой в работе API сервиса: " +:+ message)))
    end.
Proof.
  unfold get_api_answer, requests_get.
  destruct (http w) as [err|[code [v|]]|code error]; simpl; try reflexivity;
    destruct (code =? 200); try reflexivity.
  simpl. unfold response_json, try_except. simpl.
  by destruct (is_JSONDecodeError error).
Qed.

Lemma check_response_ok v t l :
  check_response v = (t, inr l) →
  t = [] ∧ ∃ d, v = VDict d ∧ dict_lookup "homeworks" d = Some (VList l)
                ∧ is_Some (dict_lookup "current_date" d).
Proof.
  unfold check_response. destruct v; try discriminate.
  rewrite !dict_contains_lookup.
  destruct (dict_lookup "homeworks" d) as [[]|] eqn:Hh;
    destruct (dict_lookup "current_date" d) eqn:Hc; simpl; try discriminate.
  intros [= <- <-]. split; [done|]. exists d. rewrite Hc. eauto.
Qed.

Lemma check_response_trace v : (check_response v).1 = [].
Proof.
  unfold check_response. destruct v; try reflexivity.
  rewrite !dict_contains_lookup.
  destruct (dict_lookup "homeworks" d) as [[]|];
    destruct (dict_lookup "current_date" d); reflexivity.
Qed.

Lemma parse_status_ok homework t status_str :
  parse_status homework = (t, inr status_str) →
  t = [] ∧ ∃ d name s verdict,
    homework = VDict d ∧ dict_lookup "homework_name" d = Some name
    ∧ dict_lookup "status" d = Some (VStr s)
    ∧ HOMEWORK_STATUSES !! s = Some verdict
    ∧ status_str = "Изменился статус проверки работы " +:+ dq
                   +:+ py_str name +:+ dq +:+ ". " +:+ verdict.
Proof.
  unfold parse_status. destruct homework; try discriminate.
  simpl. rewrite !dict_contains_lookup.
  destruct (dict_lookup "homework_name" d) as [name|] eqn:Hn; [|discriminate].
  destruct (dict_lookup "status" d) as [status|] eqn:Hs; [|discriminate].
  simpl. destruct status; simpl; try discriminate.
  destruct (HOMEWORK_STATUSES !! s) as [verdict|] eqn:Hv; [|discriminate].
  intros [= <- <-]. split; [done|]. by exists d, name, s, verdict.
Qed.

Lemma parse_status_trace homework : Forall fetch_event (parse_status homework).1.
Proof.
  unfold parse_status. destruct homework; try by constructor.
  simpl. rewrite !dict_contains_lookup.
  destruct (dict_lookup "homework_name" d) as [name|]; [|by repeat constructor].
  destruct (dict_lookup "status" d) as [status|]; [|by repeat constructor].
  simpl. destruct status; simpl; try by repeat constructor.
  destruct (HOMEWORK_STATUSES !! s); by repeat constructor.
Qed.

Lemma fetch_and_format_trace w ts : Forall fetch_event (fetch_and_format w ts).1.
Proof.
  unfold fetch_and_format.
  apply io_bind_trace_Forall.
  { rewrite get_api_answer_cases.
    destruct (http w) as [err|[code [v|]]|code error]; simpl;
      try destruct (code =? 200); try destruct (is_JSONDecodeError error);
      by repeat constructor. }
  intros response. apply io_bind_trace_Forall.
  { rewrite check_response_trace. constructor. }
  intros homeworks_list. apply io_bind_trace_Forall.
  { destruct homeworks_list; by repeat constructor. }
  intros homework. apply io_bind_trace_Forall.
  { apply parse_status_trace. }
  intros; constructor.
Qed.

Lemma fetch_and_format_ok w ts t response status_str :
  fetch_and_format w ts = (t, inr (response, status_str)) →
  (∃ d, response = VDict d)
  ∧ ∃ rest, status_str = "Изменился статус проверки работы " +:+ rest.
Proof.
  unfold fetch_and_format. intros Hrun.
  apply io_bind_ok in Hrun as (t1 & response' & t2 & _ & Hrun & _).
  apply io_bind_ok in Hrun as (t3 & homeworks_list & t4 & Hcheck & Hrun & _).
  apply io_bind_ok in Hrun as (t5 & homework & t6 & _ & Hrun & _).
  apply io_bind_ok in Hrun as (t7 & s & t8 & Hparse & Hret & _).
  injection Hret as _ <- <-.
  apply check_response_ok in Hcheck as (_ & d & -> & _).
  apply parse_status_ok in Hparse
    as (_ & d' & name & s' & verdict & _ & _ & _ & _ & ->).
  split; [by exists d|]. eexists. reflexivity.
Qed.

(** ** The cycle, case by case *)

(** The [try] suite is lines 122-130 followed by the comparison, the send and
    the two assignments. *)
Lemma try_suite_fetch_and_format w st :
  try_suite w st =
    match fetch_and_format w (current_timestamp st) with
    | (t, inl error) => (st, (t, inl error))
    | (t, inr (response, status_str)) =>
        if bool_decide (Some status_str ≠ last_message st) then
          match bot_status w with
          | None =>
              (Locals (current_date_of response) (Some status_str)
                      (last_error st),
               (t ++ [BotSend TELEGRAM_CHAT_ID status_str;
                      Log INFO (delivery_log status_str)], inr tt))
          | Some err =>
              (st, (t ++ [BotSend TELEGRAM_CHAT_ID status_str],
                    inl (SendMessageFailure
                           ("Сбой при отправке сообщения: " +:+ err))))
          end
        else
          (Locals (current_date_of response) (last_message st) (last_error st),
           (t ++ [Log DEBUG "Статус домашней работы не изменился."], inr tt))
    end.
Proof.
  unfold try_suite, fetch_and_format. run.
  destruct (get_api_answer w (current_timestamp st)) as [t1 [e|response]];
    [reflexivity|]. run.
  destruct (check_response response) as [t2 [e|homeworks_list]] eqn:Hcheck;
    [reflexivity|]. run.
  apply check_response_ok in Hcheck as (-> & d & -> & _ & _).
  destruct homeworks_list as [|homework rest]; [reflexivity|]. run.
  destruct (parse_status homework) as [t3 [e|status_str]] eqn:Hparse;
    [reflexivity|]. run.
  apply parse_status_ok in Hparse as [-> _].
  destruct (bool_decide (Some status_str ≠ last_message st)); run.
  - rewrite send_message_cases.
    destruct (bot_status w); cbn [app]; by rewrite ?app_nil_r.
  - cbn [app]. by rewrite ?app_nil_r.
Qed.

Lemma except_suite_cases w error st :
  except_suite w error st =
    let message := "Сбой в работе программы: " +:+ exn_str error in
    if bool_decide (Some message ≠ last_error st) then
      match bot_error w with
      | None =>
          (Locals (current_timestamp st) (last_message st) (Some message),
           ([Log ERROR message; BotSend TELEGRAM_CHAT_ID message;
             Log INFO (delivery_log message)], inr tt))
      | Some err =>
          (st, ([Log ERROR message; BotSend TELEGRAM_CHAT_ID message],
                inl (SendMessageFailure
                       ("Сбой при отправке сообщения: " +:+ err))))
      end
    else (st, ([Log ERROR message], inr tt)).
Proof.
  unfold except_suite. run. cbv zeta.
  destruct (bool_decide _); [|reflexivity].
  rewrite send_message_cases. by destruct (bot_error w).
Qed.

Lemma cycle_unfold w st :
  cycle w st =
    match try_suite w st with
    | (st1, (t1, inl error)) =>
        let '(st2, (t2, r2)) := except_suite w error st1 in
        (st2, (t1 ++ t2 ++ [Sleep RETRY_TIME], r2))
    | (st1, (t1, inr _)) =>
        (st1, (t1 ++ [clean_cycle_log; Sleep RETRY_TIME], inr tt))
    end.
Proof.
  unfold cycle, try_except_else_finally.
  destruct (try_suite w st) as [st1 [t1 [error|[]]]]; [|reflexivity].
  by destruct (except_suite w error st1) as [st2 [t2 r2]].
Qed.

End Functions.

(** ** The validation pipeline *)

Section Pipeline.
Context {K : Constants} {B : Builtins}.

(** C4: a response that is a dict and lacks the key [homeworks] or the key
    [current_date] (or both) makes [check_response] raise
    [IncorrectApiAnswer], the IncorrectShapeError of the specification. *)
Theorem check_response_missing_key (d : list (string * value)) :
  dict_contains "homeworks" d = false ∨ dict_contains "current_date" d = false →
  check_response (VDict d)
  = raise (IncorrectApiAnswer "Получен некорректный ответ от сервиса API.").
Proof.
  unfold check_response. by intros [-> | ->]; rewrite ?orb_true_r.
Qed.

(** C5: for a homework record that has the key [homework_name] and a
    [status] that is a key of [HOMEWORK_STATUSES], [parse_status] returns,
    without logging, the sentence of line 100 (which the specification gives
    in English): the fixed words, the name between double quotes, a full stop
    and the verdict of the table. *)
Theorem parse_status_sentence (d : list (string * value)) (homework_name : value)
    (status verdict : string) :
  dict_lookup "homework_name" d = Some homework_name →
  dict_lookup "status" d = Some (VStr status) →
  HOMEWORK_STATUSES !! status = Some verdict →
  parse_status (VDict d)
  = mret ("Изменился статус проверки работы " +:+ dq
          +:+ py_str homework_name +:+ dq +:+ ". " +:+ verdict).
Proof.
  intros Hname Hstatus Hverdict. unfold parse_status. simpl.
  rewrite !dict_contains_lookup, Hname, Hstatus. simpl.
  by rewrite Hverdict.
Qed.

(** C6 (amended): for every integer timestamp greater than 0 the request of
    [get_api_answer] carries [from_date] equal to it; with no timestamp
    ([None]) and with the timestamp 0 the current time is sent. *)
Theorem get_api_answer_from_date (w : world) (z : Z) :
  0 < z →
  requested_params (get_api_answer w (VInt z)).1 = Some [("from_date", VInt z)]
  ∧ requested_params (get_api_answer w VNone).1
    = Some [("from_date", VInt (clock w))]
  ∧ requested_params (get_api_answer w (VInt 0)).1
    = Some [("from_date", VInt (clock w))].
Proof.
  intros Hz. rewrite !get_api_answer_cases.
  assert (truthy (VInt z) = true) as ->.
  { simpl. apply negb_true_iff, Z.eqb_neq. lia. }
  destruct (http w) as [err|[code [v|]]|code error]; simpl;
    try destruct (code =? 200); try destruct (is_JSONDecodeError error); done.
Qed.

(** C7: when the answer has status 200 and its body does not decode as JSON,
    [get_api_answer] logs the error and returns [None] instead of raising,
    and [check_response] applied to [None] raises [EmptyResponse] (so the
    fetch-and-validate steps of the cycle end in that exception). *)
Theorem undecodable_body_is_empty_response (w : world) (ts : value) :
  http w = HttpReturns (Response 200 None) →
  get_api_answer w ts
  = ([HttpGet ENDPOINT HEADERS
        [("from_date", if truthy ts then ts else VInt (clock w))];
      Log ERROR "Ошибка с JSON"], inr VNone)
  ∧ check_response VNone
    = raise (EmptyResponse "Нет данных в ответе сервиса API.")
  ∧ (fetch_and_format w ts).2
    = inl (EmptyResponse "Нет данных в ответе сервиса API.").
Proof.
  intros Hhttp. unfold fetch_and_format.
  rewrite get_api_answer_cases, Hhttp. done.
Qed.

End Pipeline.

(** ** Startup *)

Section Startup.
Context {K : Constants} {B : Builtins}.

(** C3 (amended): when the API token, the bot token or the chat id is absent
    or empty, [main] logs critically and exits at once: no cycle of the loop
    is run, no request made and no message sent.  (The endpoint and the
    headers are not looked at.) *)
Theorem startup_check_exits (start : Z) (ws : list world) :
  truthy PRACTICUM_TOKEN = false ∨ truthy TELEGRAM_TOKEN = false
  ∨ truthy TELEGRAM_CHAT_ID = false →
  main start ws
  = ([Log CRITICAL "Недоступна одна или несколько переменных окружения."],
     SysExit "Работа программы завершена.").
Proof.
  intros Hmissing. unfold main.
  assert (check_tokens = false) as ->; [|reflexivity].
  unfold check_tokens, py_all. simpl.
  destruct Hmissing as [-> | [-> | ->]]; rewrite ?andb_false_r; reflexivity.
Qed.

(** With the three of them present and the [Bot] object built, the loop is
    entered, whatever the endpoint and the headers are. *)
Lemma startup_check_passes (start : Z) (ws : list world) :
  truthy PRACTICUM_TOKEN = true → truthy TELEGRAM_TOKEN = true →
  truthy TELEGRAM_CHAT_ID = true → Bot TELEGRAM_TOKEN = None →
  main start ws
  = let '(st, (t, r)) := poll_loop ws (Locals (VInt start) None None) in
    (t, match r with
        | inl error => Unhandled error st
        | inr _ => Polling st
        end).
Proof.
  intros Hp Ht Hc Hbot. unfold main, check_tokens, py_all. simpl.
  by rewrite Hp, Ht, Hc, Hbot.
Qed.

End Startup.

(** ** Traces *)

Lemma sends_app text t t' : sends text (t ++ t') = (sends text t + sends text t')%nat.
Proof.
  induction t as [|[] t IH]; simpl; rewrite ?IH; lia.
Qed.

Lemma sends_fetch_events text t : Forall fetch_event t → sends text t = 0%nat.
Proof.
  induction 1 as [|[] t Hev _ IH]; simpl in *; done.
Qed.

Lemma clean_cycle_log_not_fetch_event t :
  Forall fetch_event t → clean_cycle_log ∉ t.
Proof.
  intros Hall Hin. rewrite Forall_forall in Hall.
  apply Hall in Hin. discriminate Hin.
Qed.

(** A status message is never an error message: they differ from their
    second byte on. *)
Lemma status_message_not_error_message rest rest' :
  "Изменился статус проверки работы " +:+ rest
  ≠ "Сбой в работе программы: " +:+ rest'.
Proof. discriminate. Qed.

(** ** The cycle *)

Section Cycle.
Context {K : Constants} {B : Builtins}.

(** What the [try] suite leaves when it raises: the variables as they were. *)
Lemma try_suite_raises_keeps_locals w st error :
  (try_suite w st).2.2 = inl error → (try_suite w st).1 = st.
Proof.
  rewrite try_suite_fetch_and_format.
  destruct (fetch_and_format w (current_timestamp st)) as [t [e|[response s]]];
    [done|].
  destruct (bool_decide _); [destruct (bot_status w)|]; done.
Qed.

(** The [except] suite never assigns the timestamp nor [last_message]. *)
Lemma except_suite_keeps w error st :
  current_timestamp (except_suite w error st).1 = current_timestamp st
  ∧ last_message (except_suite w error st).1 = last_message st.
Proof.
  rewrite except_suite_cases. cbv zeta.
  destruct (bool_decide _); [destruct (bot_error w)|]; done.
Qed.

(** C9: in a cycle whose [try] suite raises (in the fetch, the validation,
    the selection, the formatting or the status notification) the variables
    the cycle leaves behind, from which the next cycle starts, have the
    [current_timestamp] the cycle started with. *)
Theorem failing_cycle_keeps_timestamp (w : world) (st : locals) (error : exn) :
  (try_suite w st).2.2 = inl error →
  current_timestamp (cycle w st).1 = current_timestamp st.
Proof.
  intros Hraise. pose proof (try_suite_raises_keeps_locals _ _ _ Hraise) as Hst.
  rewrite cycle_unfold.
  destruct (try_suite w st) as [st1 [t1 [e|[]]]]; [|done].
  simpl in Hst. subst st1.
  pose proof (except_suite_keeps w e st) as [Hts _].
  by destruct (except_suite w e st) as [st2 [t2 r2]].
Qed.

(** In a cycle whose [try] suite raises, the [else] suite is not run. *)
Lemma raising_cycle_has_no_clean_log w st error :
  (try_suite w st).2.2 = inl error → clean_cycle_log ∉ (cycle w st).2.1.
Proof.
  rewrite cycle_unfold, try_suite_fetch_and_format.
  pose proof (fetch_and_format_trace w (current_timestamp st)) as Hfetch.
  apply clean_cycle_log_not_fetch_event in Hfetch.
  assert (∀ e st1 t1, clean_cycle_log ∉ t1 →
    clean_cycle_log ∉
      (let '(st2, (t2, r2)) := except_suite w e st1 in
       (st2, (t1 ++ t2 ++ [Sleep RETRY_TIME], r2))).2.1) as Hexcept.
  { intros e st1 t1 Ht1. rewrite except_suite_cases. cbv zeta.
    destruct (bool_decide _); [destruct (bot_error w)|]; simpl;
      rewrite !elem_of_app, !elem_of_cons, elem_of_nil;
      intros [?|Hin]; try done; by repeat destruct Hin as [?|Hin]. }
  destruct (fetch_and_format w (current_timestamp st)) as [t [e|[response s]]];
    simpl in Hfetch.
  - intros _. by apply Hexcept.
  - destruct (bool_decide _); [destruct (bot_status w)|]; try done.
    intros _. apply Hexcept.
    rewrite elem_of_app, list_elem_of_singleton. by intros [?|?].
Qed.

(** C8 (amended): the log of the [else] suite is in the trace of a cycle
    exactly when the [try] suite raised nothing; in a cycle where a step
    raised an exception that the loop caught, [NoHomeworkInfo] for an empty
    list among them, it is not written. *)
Theorem clean_log_iff_nothing_raised (w : world) (st : locals) :
  clean_cycle_log ∈ (cycle w st).2.1 ↔ (try_suite w st).2.2 = inr tt.
Proof.
  split.
  - intros Hin. destruct (try_suite w st).2.2 as [error|[]] eqn:Hrun; [|done].
    by apply raising_cycle_has_no_clean_log in Hrun.
  - intros Hrun. rewrite cycle_unfold.
    destruct (try_suite w st) as [st1 [t1 [error|[]]]]; [done|].
    simpl. rewrite elem_of_app. right. apply elem_of_cons. by left.
Qed.

End Cycle.

Section Bookkeeping.
Context {K : Constants} {B : Builtins}.

Ltac cycle_cases w st :=
  rewrite ?(cycle_unfold w st), ?(try_suite_fetch_and_format w st) in *;
  let Hf := fresh "Hfetch" in
  destruct (fetch_and_format w (current_timestamp st))
    as [? [?|[? ?]]] eqn:Hf;
  [|case_bool_decide; [destruct (bot_status w) eqn:?|]];
  rewrite ?except_suite_cases in *; cbv zeta in *;
  try (case_bool_decide; [destruct (bot_error w) eqn:?|]);
  cbn [fst snd last_sent bot_answer last_message last_error current_timestamp]
    in *.

(** A message that differs from the last one sent in its category reaches
    [bot.send_message]. *)
Lemma new_message_is_sent c w st m :
  formatted_message c w st = Some m → Some m ≠ last_sent c st →
  BotSend TELEGRAM_CHAT_ID m ∈ (cycle w st).2.1.
Proof.
  unfold formatted_message. destruct c; intros Hm Hnew.
  - cycle_cases w st; simplify_eq; try done; set_solver.
  - cycle_cases w st; simplify_eq; try done; set_solver.
Qed.


(** The last-sent value of a category after a cycle: the message the cycle
    has just had delivered, or the value before the cycle. *)
Lemma last_sent_after_cycle c w st :
  (∃ m, send_succeeds c w st m ∧ last_sent c (cycle w st).1 = Some m)
  ∨ ((∀ m, ¬ send_succeeds c w st m)
     ∧ last_sent c (cycle w st).1 = last_sent c st).
Proof.
  unfold send_succeeds, formatted_message.
  destruct c; cycle_cases w st;
    first
      [ left; eexists; split_and!; try reflexivity; congruence
      | right; split; [|reflexivity];
        intros m' (Hm' & Hnew' & Hanswer'); congruence ].
Qed.

(** ** Deduplication *)

Lemma sends_error_in_try_suite w st rest :
  sends ("Сбой в работе программы: " +:+ rest) (try_suite w st).2.1 = 0%nat.
Proof.
  rewrite try_suite_fetch_and_format.
  pose proof (fetch_and_format_trace w (current_timestamp st)) as Hfetch.
  destruct (fetch_and_format w (current_timestamp st))
    as [t [e|[response s]]] eqn:Hrun; simpl in Hfetch.
  { by apply sends_fetch_events. }
  apply fetch_and_format_ok in Hrun as [_ [rest' ->]].
  destruct (bool_decide _); [destruct (bot_status w)|]; cbn [fst snd];
    rewrite sends_app, (sends_fetch_events _ _ Hfetch); reflexivity.
Qed.

(** A cycle that forms the message last sent in its category does not send
    it. *)
Lemma known_message_not_sent c w st m :
  formatted_message c w st = Some m → last_sent c st = Some m →
  sends m (cycle w st).2.1 = 0%nat.
Proof.
  intros Hm Hlast. destruct c; unfold formatted_message in Hm.
  - pose proof (fetch_and_format_trace w (current_timestamp st)) as Hfetch.
    cycle_cases w st; simplify_eq; try done;
      rewrite !sends_app, (sends_fetch_events _ _ Hfetch); reflexivity.
  - pose proof (sends_error_in_try_suite w st) as Htry.
    rewrite cycle_unfold.
    destruct (try_suite w st) as [st1 [t1 [error|[]]]] eqn:Hrun; [|done].
    pose proof (try_suite_raises_keeps_locals w st error) as Hst.
    rewrite Hrun in Hst. simpl in Hst, Hm. specialize (Hst eq_refl). subst st1.
    injection Hm as <-. rewrite except_suite_cases. cbv zeta.
    cbn [last_sent] in Hlast.
    rewrite bool_decide_eq_false_2 by (by rewrite Hlast; intros []).
    cbn [fst snd]. simpl in Htry.
    rewrite sends_app, Htry. reflexivity.
Qed.


(** What can leave a cycle: the failure of the [send_message] call of the
    [except] suite, and nothing else.  Whatever the [try] suite raises, a
    failed status notification included, is caught. *)
Lemma cycle_raises_iff w st error :
  (cycle w st).2.2 = inl error ↔
  ∃ m err, send_fails ErrorMessage w st m ∧ bot_error w = Some err
           ∧ error = SendMessageFailure
                       ("Сбой при отправке сообщения: " +:+ err).
Proof.
  unfold send_fails, formatted_message.
  cycle_cases w st; split;
    try (intros (m & err & (Hm & Hnew & Hrefused) & Herr & ->));
    try intros [= <-]; simplify_eq; try done;
    eexists _, _; split_and!; try reflexivity; congruence.
Qed.




End Bookkeeping.

(** ** The loop *)

Section Loop.
Context {K : Constants} {B : Builtins}.

Lemma poll_loop_cons w ws st :
  poll_loop (w :: ws) st =
    match cycle w st with
    | (st1, (t1, inl error)) => (st1, (t1, inl error))
    | (st1, (t1, inr _)) =>
        let '(st2, (t2, r)) := poll_loop ws st1 in (st2, (t1 ++ t2, r))
    end.
Proof. reflexivity. Qed.

(** As long as the bot takes the error messages the loop goes on, whatever
    the cycles raise. *)
Lemma poll_loop_goes_on ws st :
  (∀ w, w ∈ ws → bot_error w = None) → (poll_loop ws st).2.2 = inr tt.
Proof.
  revert st. induction ws as [|w ws IH]; intros st Hbot; [done|].
  rewrite poll_loop_cons.
  destruct (cycle w st) as [st1 [t1 [error|[]]]] eqn:Hcycle.
  - assert ((cycle w st).2.2 = inl error) as Hraises by (by rewrite Hcycle).
    apply cycle_raises_iff in Hraises as (m & err & _ & Herr & _).
    rewrite Hbot in Herr by set_solver. done.
  - specialize (IH st1). destruct (poll_loop ws st1) as [st2 [t2 r]].
    simpl in *. apply IH. intros w' Hw'. apply Hbot. set_solver.
Qed.

(** The cycle whose error notification fails is the last one: the exception
    leaves [while True] and the worlds that follow are never visited. *)
Lemma failed_error_notification_ends_loop w ws st m :
  send_fails ErrorMessage w st m →
  ∃ err, bot_error w = Some err
    ∧ poll_loop (w :: ws) st
      = ((cycle w st).1,
         ((cycle w st).2.1,
          inl (SendMessageFailure ("Сбой при отправке сообщения: " +:+ err)))).
Proof.
  intros Hfails. destruct (bot_error w) as [err|] eqn:Herr;
    [|by destruct Hfails as (_ & _ & [])].
  exists err. split; [done|]. rewrite poll_loop_cons.
  assert ((cycle w st).2.2 = inl (SendMessageFailure
            ("Сбой при отправке сообщения: " +:+ err))) as Hraises.
  { apply cycle_raises_iff. by exists m, err. }
  by destruct (cycle w st) as [st1 [t1 [error|[]]]]; simplify_eq/=.
Qed.

(** C10: where the claim breaks.  In a cycle whose error notification is
    refused [last_error] keeps its value, as the claim says, but the message
    is not attempted again in a later cycle: the [SendMessageFailure] of
    line 142 leaves the loop, so the bot was called with the message once
    and the worlds that follow, whatever they would answer, are never
    visited. *)
Theorem refused_error_notification_never_retried (w : world)
    (ws : list world) (st : locals) (m : string) :
  send_fails ErrorMessage w st m →
  ∃ err,
    bot_error w = Some err
    ∧ poll_loop (w :: ws) st
      = (st, ((cycle w st).2.1,
              inl (SendMessageFailure
                     ("Сбой при отправке сообщения: " +:+ err))))
    ∧ sends m (poll_loop (w :: ws) st).2.1 = 1%nat.
Proof.
  intros Hfails.
  destruct (failed_error_notification_ends_loop w ws st m Hfails)
    as (err & Herr & Hrun).
  exists err. split; [done|].
  destruct Hfails as (Hm & Hnew & _). unfold formatted_message in Hm.
  assert ((cycle w st).1 = st ∧ sends m (cycle w st).2.1 = 1%nat)
    as [Hst Hsends].
  { pose proof (sends_error_in_try_suite w st) as Htry.
    rewrite cycle_unfold.
    destruct (try_suite w st) as [st1 [t1 [error|[]]]] eqn:Hsuite; [|done].
    pose proof (try_suite_raises_keeps_locals w st error) as Hkeeps.
    rewrite Hsuite in Hkeeps. simpl in Hkeeps, Hm, Htry, Hnew.
    specialize (Hkeeps eq_refl). subst st1. injection Hm as <-.
    rewrite except_suite_cases, Herr. cbv zeta.
    rewrite bool_decide_eq_true_2 by done. simpl.
    rewrite !sends_app, Htry. simpl. by rewrite String.eqb_refl. }
  rewrite Hrun. simpl. by rewrite Hst.
Qed.

(** C1: where the claim breaks.  The tokens are there and the [Bot] object
    is built.  When the [try] suite of the first cycle raises and Telegram
    refuses the error message, the [SendMessageFailure] raised in the
    [except] suite is handled nowhere: after the sleep of the [finally]
    suite it leaves [while True] and [main], and the cycles that would
    follow are never run. *)
Theorem error_notification_failure_ends_main (start : Z) (w : world)
    (ws : list world) (m err : string) :
  check_tokens = true → Bot TELEGRAM_TOKEN = None →
  formatted_message ErrorMessage w (Locals (VInt start) None None) = Some m →
  bot_error w = Some err →
  main start (w :: ws)
  = ((cycle w (Locals (VInt start) None None)).2.1,
     Unhandled
       (SendMessageFailure ("Сбой при отправке сообщения: " +:+ err))
       (cycle w (Locals (VInt start) None None)).1).
Proof.
  intros Htokens Hbot Hm Herr. unfold main. rewrite Htokens, Hbot. cbv zeta.
  destruct (failed_error_notification_ends_loop w ws
              (Locals (VInt start) None None) m) as (err' & Herr' & ->).
  { split_and!; [done|done|simpl; by rewrite Herr]. }
  rewrite Herr in Herr'. by injection Herr' as <-.
Qed.

End Loop.

(** ** The properties on the sample inputs *)

Section Samples.
#[local] Existing Instance sample_builtins.

(** The request fails and Telegram then refuses the error message: [main]
    ends after the first cycle, the second is never run. *)
Lemma error_notification_failure_ends_main_witness :
  main (K:=sample_constants) 1500 [all_down_world; approved_world]
  = ([HttpGet sample_endpoint sample_headers [("from_date", VInt 1500)];
      Log ERROR ("Сбой в работе программы: Сбой в работе API сервиса: "
                 +:+ "Connection refused");
      BotSend (VStr "123456")
        ("Сбой в работе программы: Сбой в работе API сервиса: "
         +:+ "Connection refused");
      Sleep 600],
     Unhandled (SendMessageFailure "Сбой при отправке сообщения: Timed out")
               (Locals (VInt 1500) None None)).
Proof.
  rewrite (error_notification_failure_ends_main (K:=sample_constants) 1500
             all_down_world [approved_world]
             ("Сбой в работе программы: Сбой в работе API сервиса: "
              +:+ "Connection refused") "Timed out").
  - vm_compute. reflexivity.
  - reflexivity.
  - reflexivity.
  - vm_compute. reflexivity.
  - reflexivity.
Defined.



(** C3, as stated, fails: with the endpoint and the headers not set, the
    three tokens being there, [main] does not stop at startup; it enters the
    loop, calls [requests.get] and sends a message to Telegram. *)
Lemma missing_endpoint_enters_loop :
  four_settings_present (K:=no_endpoint_constants) = false
  ∧ main (K:=no_endpoint_constants) 1500 [no_scheme_world]
    = ([HttpGet VNone VNone [("from_date", VInt 1500)];
        Log ERROR ("Сбой в работе программы: Сбой в работе API сервиса: "
                   +:+ "Invalid URL 'None': No scheme supplied.");
        BotSend (VStr "123456")
          ("Сбой в работе программы: Сбой в работе API сервиса: "
           +:+ "Invalid URL 'None': No scheme supplied.");
        Log INFO
          (delivery_log
             ("Сбой в работе программы: Сбой в работе API сервиса: "
              +:+ "Invalid URL 'None': No scheme supplied."));
        Sleep 600],
       Polling (Locals (VInt 1500) None
          (Some ("Сбой в работе программы: Сбой в работе API сервиса: "
                 +:+ "Invalid URL 'None': No scheme supplied."))))
  ∧ main (K:=no_endpoint_constants) 1500 [no_scheme_world]
    ≠ ([Log CRITICAL "Недоступна одна или несколько переменных окружения."],
       SysExit "Работа программы завершена.").
Proof.
  split_and!; [vm_compute; reflexivity..|].
  vm_compute. discriminate.
Qed.

Lemma startup_check_exits_witness :
  main (K:=no_token_constants) 1500 [approved_world]
  = ([Log CRITICAL "Недоступна одна или несколько переменных окружения."],
     SysExit "Работа программы завершена.").
Proof.
  apply (startup_check_exits (K:=no_token_constants)). left. reflexivity.
Defined.

Lemma check_response_missing_key_witness :
  check_response (VDict [("foo", VInt 1)])
  = raise (IncorrectApiAnswer "Получен некорректный ответ от сервиса API.").
Proof. apply check_response_missing_key. left. reflexivity. Defined.

Lemma parse_status_sentence_witness :
  parse_status (K:=sample_constants) proj1_approved = mret approved_message.
Proof.
  apply (parse_status_sentence (K:=sample_constants)
           [("homework_name", VStr "proj1"); ("status", VStr "approved")]
           (VStr "proj1") "approved"
           "Работа проверена: ревьюеру всё понравилось. Ура!").
  - reflexivity.
  - reflexivity.
  - vm_compute. reflexivity.
Defined.

(** C6, as stated, fails: the caller supplies the timestamp 0 and the request
    carries the current time. *)
Lemma zero_timestamp_sends_current_time :
  0 ≤ 0
  ∧ requested_params
      (get_api_answer (K:=sample_constants) approved_world (VInt 0)).1
    = Some [("from_date", VInt 2000)]
  ∧ requested_params
      (get_api_answer (K:=sample_constants) approved_world (VInt 0)).1
    ≠ Some [("from_date", VInt 0)].
Proof. split_and!; [lia|reflexivity|discriminate]. Qed.

Lemma get_api_answer_from_date_witness :
  requested_params
    (get_api_answer (K:=sample_constants) approved_world (VInt 1000)).1
  = Some [("from_date", VInt 1000)]
  ∧ requested_params
      (get_api_answer (K:=sample_constants) approved_world VNone).1
    = Some [("from_date", VInt 2000)]
  ∧ requested_params
      (get_api_answer (K:=sample_constants) approved_world (VInt 0)).1
    = Some [("from_date", VInt 2000)].
Proof.
  apply (get_api_answer_from_date (K:=sample_constants) approved_world 1000).
  lia.
Defined.

Lemma undecodable_body_is_empty_response_witness :
  get_api_answer (K:=sample_constants) not_json_world (VInt 1500)
  = ([HttpGet sample_endpoint sample_headers [("from_date", VInt 1500)];
      Log ERROR "Ошибка с JSON"], inr VNone)
  ∧ check_response VNone
    = raise (EmptyResponse "Нет данных в ответе сервиса API.")
  ∧ (fetch_and_format (K:=sample_constants) not_json_world (VInt 1500)).2
    = inl (EmptyResponse "Нет данных в ответе сервиса API.").
Proof.
  apply (undecodable_body_is_empty_response (K:=sample_constants)
           not_json_world (VInt 1500)).
  reflexivity.
Defined.

(** C8, as stated, fails: the answer has no homework, [NoHomeworkInfo] is
    raised and caught, the loop goes on, and the log of the [else] suite is
    not written. *)
Lemma no_homework_cycle_has_no_clean_log :
  (try_suite (K:=sample_constants) empty_world start_locals).2.2
  = inl (NoHomeworkInfo "Не найдено информации о домашней работе.")
  ∧ (cycle (K:=sample_constants) empty_world start_locals).2.2 = inr tt
  ∧ clean_cycle_log ∉ (cycle (K:=sample_constants) empty_world start_locals).2.1.
Proof.
  split_and!; [vm_compute; reflexivity..|].
  apply (raising_cycle_has_no_clean_log _ _
           (NoHomeworkInfo "Не найдено информации о домашней работе.")).
  vm_compute. reflexivity.
Qed.

Lemma clean_log_iff_nothing_raised_witness :
  clean_cycle_log
  ∈ (cycle (K:=sample_constants) approved_world start_locals).2.1.
Proof.
  apply (clean_log_iff_nothing_raised (K:=sample_constants)).
  vm_compute. reflexivity.
Defined.

Lemma failing_cycle_keeps_timestamp_witness :
  current_timestamp (cycle (K:=sample_constants) empty_world start_locals).1
  = VInt 1500.
Proof.
  apply (failing_cycle_keeps_timestamp (K:=sample_constants) empty_world
           start_locals
           (NoHomeworkInfo "Не найдено информации о домашней работе.")).
  vm_compute. reflexivity.
Defined.

(** The request fails three times with the same text; Telegram refuses the
    error message in the first cycle and would take it in the next two. *)
Lemma refused_error_notification_never_retried_witness :
  (∃ err,
     bot_error all_down_world = Some err
     ∧ poll_loop (K:=sample_constants)
         [all_down_world; api_down_world; api_down_world] start_locals
       = (start_locals,
          ((cycle (K:=sample_constants) all_down_world start_locals).2.1,
           inl (SendMessageFailure
                  ("Сбой при отправке сообщения: " +:+ err))))
     ∧ sends api_down_message
         (poll_loop (K:=sample_constants)
            [all_down_world; api_down_world; api_down_world]
            start_locals).2.1 = 1%nat)
  ∧ formatted_message (K:=sample_constants) ErrorMessage api_down_world
      start_locals = Some api_down_message
  ∧ main (K:=sample_constants) 1500
      [all_down_world; api_down_world; api_down_world]
    = ([HttpGet sample_endpoint sample_headers [("from_date", VInt 1500)];
        Log ERROR api_down_message;
        BotSend (VStr "123456") api_down_message;
        Sleep 600],
       Unhandled (SendMessageFailure "Сбой при отправке сообщения: Timed out")
                 (Locals (VInt 1500) None None)).
Proof.
  split_and!.
  - apply (refused_error_notification_never_retried (K:=sample_constants)).
    split_and!; [vm_compute; reflexivity|discriminate|discriminate].
  - vm_compute. reflexivity.
  - vm_compute. reflexivity.
Defined.

End Samples.

(** * Further properties of the functions *)

Lemma io_bind_result {A B} (m m' : io A) (f : A → io B) :
  m.2 = m'.2 → (m ≫= f).2 = (m' ≫= f).2.
Proof.
  destruct m as [t [e|x]], m' as [t' [e'|x']]; simpl; intros [= <-]; try done.
  unfold mbind, io_bind. by destruct (f x).
Qed.

Section MoreFunctions.
Context {K : Constants} {B : Builtins}.

(** X1: [send_message] calls the bot exactly once, with the chat id of the
    configuration and the text it was given.  The only exception it raises
    is [SendMessageFailure], carrying the text of the [TelegramError]; the
    delivery is logged exactly when the call returns. *)
Theorem send_message_one_call (bot : bot_reply) (message : string) :
  bot_calls (send_message bot message).1 = 1%nat
  ∧ sends message (send_message bot message).1 = 1%nat
  ∧ BotSend TELEGRAM_CHAT_ID message ∈ (send_message bot message).1
  ∧ (∀ error, (send_message bot message).2 = inl error →
       ∃ err, bot = Some err
         ∧ error = SendMessageFailure
                     ("Сбой при отправке сообщения: " +:+ err))
  ∧ (Log INFO (delivery_log message) ∈ (send_message bot message).1
     ↔ (send_message bot message).2 = inr tt).
Proof.
  rewrite send_message_cases.
  destruct bot as [err|]; simpl; rewrite String.eqb_refl.
  - split_and!; try done; [set_solver|by intros ? [= <-]; exists err|].
    split; [|done]. rewrite list_elem_of_singleton. done.
  - split_and!; try done; set_solver.
Qed.

(** X2: [get_api_answer] makes exactly one request, to the endpoint with the
    headers of the configuration, before anything else, and never calls the
    bot.  The exceptions that leave it are [GetApiError], for a request
    that failed or an answer whose status is not 200, and whatever [.json()]
    raises on an answer of status 200 that is not a [JSONDecodeError]: the
    second [try] has no clause for it. *)
Theorem get_api_answer_one_request (w : world) (ts : value) :
  (∃ rest,
     (get_api_answer w ts).1
     = HttpGet ENDPOINT HEADERS
         [("from_date", if truthy ts then ts else VInt (clock w))] :: rest
     ∧ http_requests rest = 0%nat)
  ∧ bot_calls (get_api_answer w ts).1 = 0%nat
  ∧ (∀ error, (get_api_answer w ts).2 = inl error →
       (∃ msg, error = GetApiError ("Сбой в работе API сервиса: " +:+ msg))
       ∨ (http w = HttpReturnsBroken 200 error
          ∧ is_JSONDecodeError error = false)).
Proof.
  rewrite get_api_answer_cases. cbv zeta.
  destruct (http w) as [err|[code [v|]]|code e]; simpl;
    try destruct (code =? 200) eqn:Hcode;
    try destruct (is_JSONDecodeError e) eqn:Hclass; simpl;
    (split_and!; [eexists; split; reflexivity|reflexivity|]);
    intros error [= <-]; try (left; eexists; reflexivity).
  right. apply Z.eqb_eq in Hcode. by subst code.
Qed.

(** X3: for an answer whose status is not 200 the function logs and raises
    [GetApiError] with a text made of the endpoint only: the second f-string
    of lines 50-51 is never joined to [message], so neither the log nor the
    exception tells the status code (or anything else of the answer). *)
Theorem get_api_answer_status_not_reported (w : world) (ts : value)
    (r : response) :
  http w = HttpReturns r → status_code r ≠ 200 →
  let message := "Статус код ответа на запрос к " +:+ dq
                 +:+ py_str ENDPOINT +:+ dq +:+ " равен" in
  get_api_answer w ts
  = ([HttpGet ENDPOINT HEADERS
        [("from_date", if truthy ts then ts else VInt (clock w))];
      Log ERROR message],
     inl (GetApiError ("Сбой в работе API сервиса: " +:+ message))).
Proof.
  intros Hw Hr. rewrite get_api_answer_cases, Hw.
  apply Z.eqb_neq in Hr. by rewrite Hr.
Qed.

(** X4: [get_api_answer] returns a value exactly when the answer has status
    200 and [.json()] returns or raises [JSONDecodeError]; the value is the
    decoded body, or [None] after a [JSONDecodeError]. *)
Theorem get_api_answer_returns_iff (w : world) (ts v : value) :
  (get_api_answer w ts).2 = inr v ↔
  (∃ r, http w = HttpReturns r ∧ status_code r = 200
        ∧ (json r = Some v ∨ (json r = None ∧ v = VNone)))
  ∨ (∃ error, http w = HttpReturnsBroken 200 error
              ∧ is_JSONDecodeError error = true ∧ v = VNone).
Proof.
  rewrite get_api_answer_cases. cbv zeta. split.
  - destruct (http w) as [err|r|code error]; [done| |].
    + destruct (status_code r =? 200) eqn:Hcode; [|done].
      apply Z.eqb_eq in Hcode.
      destruct (json r) as [v'|] eqn:Hjson; intros [= <-]; left; exists r;
        eauto.
    + destruct (code =? 200) eqn:Hcode; [|done].
      apply Z.eqb_eq in Hcode. subst code.
      destruct (is_JSONDecodeError error) eqn:Hclass; [|done].
      intros [= <-]. right. by exists error.
  - intros [(r & -> & Hcode & Hbody)|(error & -> & Hclass & ->)].
    + apply Z.eqb_eq in Hcode. rewrite Hcode.
      by destruct Hbody as [-> | [-> ->]].
    + simpl. by rewrite Hclass.
Qed.

(** X5: a response that is neither [None] nor a dict (a list, a string, a
    number, a boolean) makes [check_response] raise [TypeError]. *)
Theorem check_response_not_a_dict (v : value) :
  v ≠ VNone → (∀ d, v ≠ VDict d) →
  check_response v
  = raise (TypeError "Получен некорректный тип данных от сервиса API.").
Proof.
  intros Hnone Hdict. destruct v; try done. by destruct (Hdict d).
Qed.

(** X6: a dict that has both keys but whose [homeworks] is not a list makes
    [check_response] raise [TypeError], with a message of its own. *)
Theorem check_response_homeworks_not_a_list (d : list (string * value))
    (homeworks : value) :
  dict_lookup "homeworks" d = Some homeworks →
  is_Some (dict_lookup "current_date" d) →
  (∀ l, homeworks ≠ VList l) →
  check_response (VDict d)
  = raise (TypeError "В ответе сервиса API нет списка домашних работ.").
Proof.
  intros Hh [date Hdate] Hlist. unfold check_response.
  rewrite !dict_contains_lookup, Hh, Hdate. simpl.
  destruct homeworks; try done. by destruct (Hlist l).
Qed.

(** X7: [check_response] never logs, and it returns a list exactly when the
    response is a dict that has the key [current_date] and a list under
    [homeworks]; the list is returned as it is, empty or not. *)
Theorem check_response_returns_iff (v : value) :
  (check_response v).1 = []
  ∧ ∀ l, (check_response v).2 = inr l ↔
         ∃ d, v = VDict d ∧ dict_lookup "homeworks" d = Some (VList l)
              ∧ is_Some (dict_lookup "current_date" d).
Proof.
  split; [apply check_response_trace|]. intros l. split.
  - intros Hrun. destruct (check_response v) as [t r] eqn:Hcheck.
    simpl in Hrun. subst r.
    by apply check_response_ok in Hcheck as [_ ?].
  - intros (d & -> & Hh & [date Hdate]). unfold check_response.
    by rewrite !dict_contains_lookup, Hh, Hdate.
Qed.

(** X8: a record without the key [homework_name] makes [parse_status] log
    and raise [KeyError] about the name, whether or not it has a status; a
    record with the name and without the key [status] makes it log and raise
    [KeyError] about the status. *)
Theorem parse_status_missing_key (d : list (string * value)) :
  (dict_lookup "homework_name" d = None →
   parse_status (VDict d)
   = ([Log ERROR "Не найдено имя домашней работы в ответе API."],
      inl (KeyError "Не найдено имя домашней работы в ответе API.")))
  ∧ (is_Some (dict_lookup "homework_name" d) →
     dict_lookup "status" d = None →
     parse_status (VDict d)
     = ([Log ERROR "Не найден статус домашней работы в ответе API."],
        inl (KeyError "Не найден статус домашней работы в ответе API."))).
Proof.
  unfold parse_status. simpl. rewrite !dict_contains_lookup. split.
  - by intros ->.
  - by intros [name ->] ->.
Qed.

(** X9: a record that has both keys and whose status is not a key of
    [HOMEWORK_STATUSES] (a string the table does not have, or [None], a
    boolean or a number) makes [parse_status] log and raise [KeyError] about
    an undocumented status. *)
Theorem parse_status_unknown_status (d : list (string * value))
    (status : value) :
  is_Some (dict_lookup "homework_name" d) →
  dict_lookup "status" d = Some status →
  (∀ s, status = VStr s → HOMEWORK_STATUSES !! s = None) →
  (∀ l, status ≠ VList l) → (∀ d', status ≠ VDict d') →
  parse_status (VDict d)
  = ([Log ERROR "Недокументированный статус домашней работы в ответе API."],
     inl (KeyError "Недокументированный статус домашней работы в ответе API.")).
Proof.
  intros [name Hname] Hstatus Hunknown Hlist Hdict.
  unfold parse_status. simpl. rewrite !dict_contains_lookup, Hname, Hstatus.
  simpl. destruct status; simpl; try done.
  - by rewrite (Hunknown s).
  - by destruct (Hlist l).
  - by destruct (Hdict d0).
Qed.

(** X10: [parse_status] returns a sentence only for a dict that has the key
    [homework_name] and, under [status], a string that is a key of
    [HOMEWORK_STATUSES]; it then logs nothing. *)
Theorem parse_status_returns_only_documented (homework : value)
    (status_str : string) :
  (parse_status homework).2 = inr status_str →
  (parse_status homework).1 = []
  ∧ ∃ d name s verdict,
      homework = VDict d ∧ dict_lookup "homework_name" d = Some name
      ∧ dict_lookup "status" d = Some (VStr s)
      ∧ HOMEWORK_STATUSES !! s = Some verdict
      ∧ status_str = "Изменился статус проверки работы " +:+ dq
                     +:+ py_str name +:+ dq +:+ ". " +:+ verdict.
Proof.
  intros Hrun. destruct (parse_status homework) as [t r] eqn:Hparse.
  simpl in Hrun. subst r. by apply parse_status_ok in Hparse.
Qed.

(** X11: every [KeyError] that [parse_status] raises was logged first, once,
    at error severity and with the same text; when it raises anything else
    ([AttributeError] for a record that is not a dict, [TypeError] for a
    status that cannot be hashed) or returns, it has logged nothing. *)
Theorem parse_status_logs_its_key_errors (homework : value) :
  match (parse_status homework).2 with
  | inl (KeyError msg) => (parse_status homework).1 = [Log ERROR msg]
  | _ => (parse_status homework).1 = []
  end.
Proof.
  unfold parse_status. destruct homework; try done.
  simpl. rewrite !dict_contains_lookup.
  destruct (dict_lookup "homework_name" d) as [name|]; [|done].
  destruct (dict_lookup "status" d) as [status|]; [|done].
  simpl. destruct status; simpl; try done.
  by destruct (HOMEWORK_STATUSES !! s).
Qed.

(** X12: a homework that is not a dict makes [parse_status] raise
    [AttributeError] at its first line, and a status that is a list or a
    dict makes the lookup in the table raise [TypeError]: neither is one of
    the [KeyError]s the function raises itself. *)
Theorem parse_status_builtin_errors (homework : value) :
  ((∀ d, homework ≠ VDict d) →
   ∃ msg, parse_status homework = raise (AttributeError msg))
  ∧ (∀ d status,
       homework = VDict d → is_Some (dict_lookup "homework_name" d) →
       dict_lookup "status" d = Some status →
       (∃ l, status = VList l) ∨ (∃ d', status = VDict d') →
       ∃ msg, parse_status homework = raise (TypeError msg)).
Proof.
  split.
  - intros Hdict. destruct homework; try (eexists; reflexivity).
    by destruct (Hdict d).
  - intros d status -> [name Hname] Hstatus Hunhashable.
    unfold parse_status. simpl. rewrite !dict_contains_lookup, Hname, Hstatus.
    simpl. destruct Hunhashable as [[l ->]|[d' ->]]; eexists; reflexivity.
Qed.

End MoreFunctions.

(** * Further properties of the loop *)

Lemma bot_calls_app t t' : bot_calls (t ++ t') = (bot_calls t + bot_calls t')%nat.
Proof. induction t as [|[] t IH]; simpl; rewrite ?IH; lia. Qed.

Lemma http_requests_app t t' :
  http_requests (t ++ t') = (http_requests t + http_requests t')%nat.
Proof. induction t as [|[] t IH]; simpl; rewrite ?IH; lia. Qed.

Lemma bot_calls_fetch_events t : Forall fetch_event t → bot_calls t = 0%nat.
Proof. induction 1 as [|[] t Hev _ IH]; simpl in *; done. Qed.

Lemma sleep_not_fetch_event t n : Forall fetch_event t → Sleep n ∉ t.
Proof.
  intros Hall Hin. rewrite Forall_forall in Hall. by apply Hall in Hin.
Qed.

Lemma io_bind_trace {A B} (m : io A) (f : A → io B) :
  (m ≫= f).1 = m.1 ++ match m.2 with inr x => (f x).1 | inl _ => [] end.
Proof.
  destruct m as [t [e|x]]; simpl; [by rewrite app_nil_r|].
  unfold mbind, io_bind. by destruct (f x).
Qed.

Section MoreLoop.
Context {K : Constants} {B : Builtins}.

(** What lines 122-130 give does not depend on the timestamp, which only
    goes into the request. *)
Lemma fetch_and_format_result_any_timestamp w ts ts' :
  (fetch_and_format w ts).2 = (fetch_and_format w ts').2.
Proof.
  unfold fetch_and_format. apply io_bind_result.
  rewrite !get_api_answer_cases. cbv zeta.
  destruct (http w) as [err|[code [v|]]|code error]; simpl;
    try destruct (code =? 200); try destruct (is_JSONDecodeError error); done.
Qed.

Lemma parse_status_no_request homework :
  http_requests (parse_status homework).1 = 0%nat.
Proof.
  unfold parse_status. destruct homework; try done.
  simpl. rewrite !dict_contains_lookup.
  destruct (dict_lookup "homework_name" d) as [name|]; [|done].
  destruct (dict_lookup "status" d) as [status|]; [|done].
  simpl. destruct status; simpl; try done.
  by destruct (HOMEWORK_STATUSES !! s).
Qed.

(** After the request, lines 122-130 only log. *)
Lemma fetch_and_format_request w ts :
  ∃ rest,
    (fetch_and_format w ts).1
    = HttpGet ENDPOINT HEADERS
        [("from_date", if truthy ts then ts else VInt (clock w))] :: rest
    ∧ http_requests rest = 0%nat.
Proof.
  unfold fetch_and_format. rewrite io_bind_trace.
  assert (∀ response : value, http_requests
            (check_response response ≫= λ homeworks_list,
               match homeworks_list with
               | homework :: _ => mret homework
               | [] =>
                   logger_info "Не найдено информации о домашней работе.";;
                   raise (NoHomeworkInfo
                            "Не найдено информации о домашней работе.")
               end ≫= λ homework,
                 parse_status homework ≫= λ status_str,
                   mret (response, status_str)).1 = 0%nat) as Hrest.
  { intros response. rewrite io_bind_trace, check_response_trace. simpl.
    destruct (check_response response).2 as [e|[|homework l]]; try done.
    rewrite io_bind_trace. simpl.
    rewrite io_bind_trace, http_requests_app, parse_status_no_request.
    by destruct (parse_status homework).2. }
  rewrite get_api_answer_cases. cbv zeta.
  destruct (http w) as [err|[code [v|]]|code error]; simpl;
    try destruct (code =? 200); try destruct (is_JSONDecodeError error);
    simpl; eexists; (split; [reflexivity|]); simpl; try done; apply Hrest.
Qed.

(** When lines 122-130 give a status message, the answer had status 200, its
    body is a dict with a date and a non-empty list of homeworks, and the
    message is that of the first homework. *)
Lemma fetch_and_format_returns w ts t response status_str :
  fetch_and_format w ts = (t, inr (response, status_str)) →
  ∃ r d date homework rest,
    http w = HttpReturns r ∧ status_code r = 200 ∧ json r = Some response
    ∧ response = VDict d ∧ dict_lookup "current_date" d = Some date
    ∧ dict_lookup "homeworks" d = Some (VList (homework :: rest))
    ∧ (parse_status homework).2 = inr status_str.
Proof.
  unfold fetch_and_format. intros Hrun.
  apply io_bind_ok in Hrun as (t1 & response' & t2 & Hget & Hrun & _).
  apply io_bind_ok in Hrun as (t3 & homeworks_list & t4 & Hcheck & Hrun & _).
  apply io_bind_ok in Hrun as (t5 & homework & t6 & Hselect & Hrun & _).
  apply io_bind_ok in Hrun as (t7 & s & t8 & Hparse & Hret & _).
  injection Hret as _ <- <-.
  apply check_response_ok in Hcheck as (_ & d & -> & Hh & [date Hdate]).
  destruct homeworks_list as [|homework' rest]; [done|].
  injection Hselect as _ <-.
  rewrite get_api_answer_cases in Hget. cbv zeta in Hget.
  destruct (http w) as [err|r|code e]; [done| |];
    [|by destruct (code =? 200), (is_JSONDecodeError e)].
  destruct (status_code r =? 200) eqn:Hcode; [|done].
  apply Z.eqb_eq in Hcode.
  destruct (json r) as [v|] eqn:Hjson; [|done]. injection Hget as _ ->.
  exists r, d, date, homework', rest. by rewrite Hparse.
Qed.


Ltac cycle_split w st :=
  rewrite ?(cycle_unfold w st), ?(try_suite_fetch_and_format w st) in *;
  let Hf := fresh "Hrun" in
  destruct (fetch_and_format w (current_timestamp st))
    as [? [?|[? ?]]] eqn:Hf;
  [|case_bool_decide; [destruct (bot_status w) eqn:?|]];
  rewrite ?except_suite_cases in *; cbv zeta in *;
  try (case_bool_decide; [destruct (bot_error w) eqn:?|]);
  cbn [fst snd last_sent bot_answer last_message last_error current_timestamp]
    in *.

Lemma try_suite_no_sleep w st n : Sleep n ∉ (try_suite w st).2.1.
Proof.
  rewrite try_suite_fetch_and_format.
  pose proof (fetch_and_format_trace w (current_timestamp st)) as Hfetch.
  apply (sleep_not_fetch_event _ n) in Hfetch.
  destruct (fetch_and_format w (current_timestamp st)) as [t [e|[response s]]];
    [done|].
  destruct (bool_decide _); [destruct (bot_status w)|]; simpl in *;
    rewrite elem_of_app; intros [?|Hin]; try done;
    repeat (apply elem_of_cons in Hin as [?|Hin]; [done|]);
    by apply elem_of_nil in Hin.
Qed.

Lemma except_suite_no_sleep w error st n :
  Sleep n ∉ (except_suite w error st).2.1.
Proof.
  rewrite except_suite_cases. cbv zeta.
  destruct (bool_decide _); [destruct (bot_error w)|]; simpl;
    intros Hin; repeat (apply elem_of_cons in Hin as [?|Hin]; [done|]);
    by apply elem_of_nil in Hin.
Qed.

(** The trace of a cycle starts with its request, the only one. *)
Lemma cycle_first_request w st :
  ∃ rest,
    (cycle w st).2.1
    = HttpGet ENDPOINT HEADERS
        [("from_date", if truthy (current_timestamp st)
                       then current_timestamp st else VInt (clock w))] :: rest
    ∧ http_requests rest = 0%nat.
Proof.
  destruct (fetch_and_format_request w (current_timestamp st))
    as (rest & Htrace & Hnone).
  cycle_split w st; simpl in Htrace; subst; simpl;
    (eexists; split; [reflexivity|]);
    rewrite ?http_requests_app, Hnone; reflexivity.
Qed.

(** X13: whatever happens in a cycle, the exception of the [except] suite
    included, the last thing it does is to sleep [RETRY_TIME] seconds, and it
    sleeps nowhere else. *)
Theorem cycle_sleeps_last (w : world) (st : locals) :
  ∃ t, (cycle w st).2.1 = t ++ [Sleep RETRY_TIME] ∧ ∀ n, Sleep n ∉ t.
Proof.
  rewrite cycle_unfold.
  pose proof (try_suite_no_sleep w st) as Htry.
  destruct (try_suite w st) as [st1 [t1 [error|[]]]]; simpl in Htry.
  - pose proof (except_suite_no_sleep w error st1) as Hexcept.
    destruct (except_suite w error st1) as [st2 [t2 r2]]; simpl in *.
    exists (t1 ++ t2). split; [by rewrite app_assoc|].
    intros n. rewrite elem_of_app. by intros [?%Htry|?%Hexcept].
  - exists (t1 ++ [clean_cycle_log]). split; [by rewrite <- app_assoc|].
    intros n. rewrite elem_of_app, list_elem_of_singleton.
    by intros [?%Htry|?].
Qed.

(** X14: a run of the loop makes one request per cycle: never more requests
    than cycles, and exactly as many when no exception left the loop. *)
Theorem poll_loop_one_request_per_cycle (ws : list world) (st : locals) :
  (http_requests (poll_loop ws st).2.1 ≤ length ws)%nat
  ∧ ((poll_loop ws st).2.2 = inr tt →
     http_requests (poll_loop ws st).2.1 = length ws).
Proof.
  revert st. induction ws as [|w ws IH]; intros st; [done|].
  rewrite poll_loop_cons.
  destruct (cycle_first_request w st) as (rest & Htrace & Hnone).
  destruct (cycle w st) as [st1 [t1 [error|[]]]]; simpl in Htrace; subst t1.
  - simpl. rewrite Hnone. split; [lia|done].
  - specialize (IH st1). destruct (poll_loop ws st1) as [st2 [t2 r]].
    simpl in *. rewrite http_requests_app, Hnone. destruct IH as [Hle Heq].
    split; [lia|]. intros Hr. rewrite Heq by done. lia.
Qed.

(** X15: a cycle whose [try] suite raises nothing leaves in
    [current_timestamp] what the answer had under [current_date], and the
    request of the cycle after it carries that value as [from_date], or the
    current time when the value is falsy ([null], 0). *)
Theorem clean_cycle_advances_timestamp (w : world) (st : locals) :
  (try_suite w st).2.2 = inr tt →
  ∃ r d date,
    http w = HttpReturns r ∧ json r = Some (VDict d)
    ∧ dict_lookup "current_date" d = Some date
    ∧ current_timestamp (cycle w st).1 = date
    ∧ ∀ w', requested_params (cycle w' (cycle w st).1).2.1
            = Some [("from_date",
                     if truthy date then date else VInt (clock w'))].
Proof.
  intros Hclean.
  assert (∃ r d date, http w = HttpReturns r ∧ json r = Some (VDict d)
            ∧ dict_lookup "current_date" d = Some date
            ∧ current_timestamp (cycle w st).1 = date)
    as (r & d & date & Hhttp & Hjson & Hdate & Hts).
  { rewrite cycle_unfold. rewrite try_suite_fetch_and_format in *.
    destruct (fetch_and_format w (current_timestamp st))
      as [t [e|[response s]]] eqn:Hrun; [done|].
    apply fetch_and_format_returns in Hrun
      as (r & d & date & hw & rest & Hhttp & _ & Hjson & -> & Hdate & _).
    exists r, d, date. split_and!; try done.
    destruct (bool_decide _); [destruct (bot_status w)|]; try done;
      simpl; by rewrite Hdate. }
  exists r, d, date. split_and!; try done. intros w'.
  destruct (cycle_first_request w' (cycle w st).1) as (rest & -> & _).
  by rewrite Hts.
Qed.

(** X16: a cycle calls the bot at most twice (a refused status message, then
    the error message about it), and at most once when its [try] suite
    raises nothing. *)
Theorem cycle_bot_calls_bound (w : world) (st : locals) :
  (bot_calls (cycle w st).2.1 ≤ 2)%nat
  ∧ ((try_suite w st).2.2 = inr tt → (bot_calls (cycle w st).2.1 ≤ 1)%nat).
Proof.
  pose proof (fetch_and_format_trace w (current_timestamp st)) as Hfetch.
  apply bot_calls_fetch_events in Hfetch.
  cycle_split w st; simpl in Hfetch;
    rewrite ?bot_calls_app, Hfetch; simpl; split; done || lia.
Qed.

(** X17: every exception the [try] suite raises is logged at error severity
    with its text, and the cycle raises it no further unless the
    notification about it fails. *)
Theorem caught_exception_is_logged (w : world) (st : locals) (error : exn) :
  (try_suite w st).2.2 = inl error →
  Log ERROR ("Сбой в работе программы: " +:+ exn_str error)
  ∈ (cycle w st).2.1
  ∧ (bot_error w = None → (cycle w st).2.2 = inr tt).
Proof.
  rewrite cycle_unfold.
  destruct (try_suite w st) as [st1 [t1 [e|[]]]]; [|done].
  intros [= ->]. rewrite except_suite_cases. cbv zeta.
  destruct (bool_decide _); [destruct (bot_error w)|]; simpl;
    (split; [rewrite elem_of_app; right; apply elem_of_cons; by left|done]).
Qed.

End MoreLoop.

(** * Runs of several cycles *)

Section Runs.
Context {K : Constants} {B : Builtins}.

(** A cycle that forms the status message last sent: nothing is sent, the
    cycle completes and only the timestamp is assigned. *)
Lemma known_status_cycle w st m :
  last_message st = Some m →
  formatted_message StatusMessage w st = Some m →
  (cycle w st).2.2 = inr tt ∧ bot_calls (cycle w st).2.1 = 0%nat
  ∧ last_message (cycle w st).1 = Some m
  ∧ last_error (cycle w st).1 = last_error st.
Proof.
  intros Hlast Hm. unfold formatted_message in Hm.
  pose proof (fetch_and_format_trace w (current_timestamp st)) as Hfetch.
  apply bot_calls_fetch_events in Hfetch.
  rewrite cycle_unfold, try_suite_fetch_and_format.
  destruct (fetch_and_format w (current_timestamp st))
    as [t [e|[response s]]]; [done|].
  simpl in Hm, Hfetch. injection Hm as ->.
  rewrite bool_decide_eq_false_2 by (by rewrite Hlast; intros []).
  simpl. by rewrite !bot_calls_app, Hfetch.
Qed.

(** X19: while the API keeps giving an answer whose status message is the
    one last sent, the loop sends nothing, however many cycles it runs: every
    cycle completes, the bot is never called and [last_message] stays. *)
Theorem unchanged_status_never_resent (ws : list world) (st : locals)
    (m : string) :
  last_message st = Some m →
  (∀ w st', w ∈ ws → formatted_message StatusMessage w st' = Some m) →
  (poll_loop ws st).2.2 = inr tt
  ∧ bot_calls (poll_loop ws st).2.1 = 0%nat
  ∧ last_message (poll_loop ws st).1 = Some m
  ∧ last_error (poll_loop ws st).1 = last_error st.
Proof.
  revert st. induction ws as [|w ws IH]; intros st Hlast Hsame; [done|].
  rewrite poll_loop_cons.
  destruct (known_status_cycle w st m) as (Hgoes & Hcalls & Hlast' & Herror);
    [done|apply Hsame, elem_of_cons; by left|].
  destruct (cycle w st) as [st1 [t1 [error|[]]]]; [done|]. simpl in *.
  destruct (IH st1) as (? & ? & ? & ?);
    [done|intros; apply Hsame, elem_of_cons; by right|].
  destruct (poll_loop ws st1) as [st2 [t2 r]]. simpl in *.
  rewrite bot_calls_app. split_and!; try done; [lia|congruence].
Qed.

(** A cycle in which lines 122-130 raise [error]: the notification is sent
    once if its text is new, not at all if it is the last error sent. *)
Lemma failing_fetch_cycle w st error :
  (fetch_and_format w (current_timestamp st)).2 = inl error →
  bot_error w = None →
  let m := "Сбой в работе программы: " +:+ exn_str error in
  (cycle w st).2.2 = inr tt ∧ last_error (cycle w st).1 = Some m
  ∧ last_message (cycle w st).1 = last_message st
  ∧ bot_calls (cycle w st).2.1
    = (if bool_decide (last_error st = Some m) then 0 else 1)%nat.
Proof.
  intros Hraise Hbot. cbv zeta.
  pose proof (fetch_and_format_trace w (current_timestamp st)) as Hfetch.
  apply bot_calls_fetch_events in Hfetch.
  rewrite cycle_unfold, try_suite_fetch_and_format.
  destruct (fetch_and_format w (current_timestamp st))
    as [t [e|[response s]]]; [|done].
  simpl in Hraise, Hfetch. injection Hraise as ->.
  rewrite except_suite_cases, Hbot. cbv zeta.
  destruct (decide (last_error st = Some
              ("Сбой в работе программы: " +:+ exn_str error))) as [Heq|Hne].
  - rewrite bool_decide_eq_false_2 by (by rewrite Heq; intros []).
    rewrite (bool_decide_eq_true_2 _ Heq). simpl.
    by rewrite !bot_calls_app, Hfetch.
  - rewrite bool_decide_eq_true_2 by congruence.
    rewrite (bool_decide_eq_false_2 _ Hne). simpl.
    by rewrite !bot_calls_app, Hfetch.
Qed.

(** X20: while the same exception keeps coming out of the fetch, the
    validation or the formatting and Telegram delivers, the chat gets one
    error message for the whole run, not one per cycle: the first cycle
    sends it and the others find it in [last_error]. *)
Theorem repeated_error_notified_once (w : world) (ws : list world)
    (st : locals) (error : exn) :
  (∀ w' ts, w' ∈ w :: ws →
     (fetch_and_format w' ts).2 = inl error ∧ bot_error w' = None) →
  last_error st ≠ Some ("Сбой в работе программы: " +:+ exn_str error) →
  (poll_loop (w :: ws) st).2.2 = inr tt
  ∧ bot_calls (poll_loop (w :: ws) st).2.1 = 1%nat
  ∧ sends ("Сбой в работе программы: " +:+ exn_str error)
          (poll_loop (w :: ws) st).2.1 = 1%nat
  ∧ last_error (poll_loop (w :: ws) st).1
    = Some ("Сбой в работе программы: " +:+ exn_str error).
Proof.
  set (m := "Сбой в работе программы: " +:+ exn_str error).
  assert (∀ ws' st', (∀ w' ts, w' ∈ ws' →
            (fetch_and_format w' ts).2 = inl error ∧ bot_error w' = None) →
          last_error st' = Some m →
          (poll_loop ws' st').2.2 = inr tt
          ∧ bot_calls (poll_loop ws' st').2.1 = 0%nat
          ∧ sends m (poll_loop ws' st').2.1 = 0%nat
          ∧ last_error (poll_loop ws' st').1 = Some m) as Hquiet.
  { induction ws' as [|w' ws' IH]; intros st' Hsame Hlast; [done|].
    rewrite poll_loop_cons.
    destruct (Hsame w' (current_timestamp st')) as [Hraise Hbot];
      [apply elem_of_cons; by left|].
    destruct (failing_fetch_cycle w' st' error Hraise Hbot)
      as (Hgoes & Hlast' & _ & Hcalls).
    pose proof (known_message_not_sent ErrorMessage w' st' m) as Hsends.
    unfold formatted_message in Hsends.
    rewrite try_suite_fetch_and_format in Hsends.
    rewrite (bool_decide_eq_true_2 _ Hlast) in Hcalls.
    destruct (fetch_and_format w' (current_timestamp st'))
      as [t [e|[response s]]]; [|done].
    simpl in Hraise, Hsends. injection Hraise as ->.
    specialize (Hsends eq_refl Hlast).
    destruct (cycle w' st') as [st1 [t1 [e|[]]]]; [done|]. simpl in *.
    destruct (IH st1) as (? & ? & ? & ?);
      [intros; apply Hsame, elem_of_cons; by right|done|].
    destruct (poll_loop ws' st1) as [st2 [t2 r]]. simpl in *.
    rewrite bot_calls_app, sends_app. split_and!; try done; lia. }
  intros Hsame Hnew. rewrite poll_loop_cons.
  destruct (Hsame w (current_timestamp st)) as [Hraise Hbot];
    [apply elem_of_cons; by left|].
  destruct (failing_fetch_cycle w st error Hraise Hbot)
    as (Hgoes & Hlast' & _ & Hcalls).
  rewrite (bool_decide_eq_false_2 _ Hnew) in Hcalls.
  assert (sends m (cycle w st).2.1 = 1%nat) as Hsends.
  { pose proof (fetch_and_format_trace w (current_timestamp st)) as Hfetch.
    rewrite cycle_unfold, try_suite_fetch_and_format.
    destruct (fetch_and_format w (current_timestamp st))
      as [t [e|[response s]]]; [|done].
    simpl in Hraise, Hfetch. injection Hraise as ->.
    rewrite except_suite_cases, Hbot. cbv zeta.
    rewrite bool_decide_eq_true_2 by (fold m; congruence).
    simpl. rewrite !sends_app, (sends_fetch_events _ _ Hfetch). simpl.
    by rewrite String.eqb_refl. }
  destruct (cycle w st) as [st1 [t1 [e|[]]]]; [done|]. simpl in *.
  destruct (Hquiet ws st1) as (? & ? & ? & ?);
    [intros; apply Hsame, elem_of_cons; by right|done|].
  destruct (poll_loop ws st1) as [st2 [t2 r]]. simpl in *.
  rewrite bot_calls_app, sends_app. split_and!; try done; lia.
Qed.

(** X21: once a message of a category has been sent, the last-sent variable
    of the category is never cleared: after any run of the loop it still
    holds a message. *)
Theorem last_sent_never_cleared (c : category) (ws : list world)
    (st : locals) :
  is_Some (last_sent c st) → is_Some (last_sent c (poll_loop ws st).1).
Proof.
  revert st. induction ws as [|w ws IH]; intros st Hsome; [done|].
  rewrite poll_loop_cons.
  assert (is_Some (last_sent c (cycle w st).1)) as Hstep.
  { destruct (last_sent_after_cycle c w st) as [(m & _ & ->)|[_ ->]]; eauto. }
  destruct (cycle w st) as [st1 [t1 [error|[]]]]; [done|]. simpl in *.
  specialize (IH st1 Hstep).
  by destruct (poll_loop ws st1) as [st2 [t2 r]].
Qed.

(** X22: [last_error] survives the cycles that go well: an error that comes
    back after a clean cycle, with the same text as the last one sent, is
    logged and not sent again. *)
Theorem recurring_error_not_renotified (w_ok w_err : world) (st : locals)
    (m : string) :
  last_error st = Some m →
  (try_suite w_ok st).2.2 = inr tt →
  formatted_message ErrorMessage w_err (cycle w_ok st).1 = Some m →
  last_error (cycle w_ok st).1 = Some m
  ∧ sends m (cycle w_err (cycle w_ok st).1).2.1 = 0%nat
  ∧ (cycle w_err (cycle w_ok st).1).2.2 = inr tt.
Proof.
  intros Hlast Hclean Hagain.
  assert (last_error (cycle w_ok st).1 = Some m) as Hkept.
  { rewrite cycle_unfold. rewrite try_suite_fetch_and_format in *.
    destruct (fetch_and_format w_ok (current_timestamp st))
      as [t [e|[response s]]]; [done|].
    destruct (bool_decide _); [destruct (bot_status w_ok)|]; done. }
  split_and!; [done|by apply (known_message_not_sent ErrorMessage)|].
  destruct (cycle w_err (cycle w_ok st).1).2.2 as [error|[]] eqn:Hraises;
    [|done].
  apply cycle_raises_iff in Hraises as (m' & err & (Hm' & Hnew & _) & _).
  rewrite Hagain in Hm'. injection Hm' as <-. simpl in Hnew.
  by rewrite Hkept in Hnew.
Qed.

(** X23: of the homeworks of an answer only the first is looked at: what
    lines 122-130 give is what [parse_status] gives for it, whatever
    follows it in the list. *)
Theorem only_first_homework_matters (w : world) (ts : value) (r : response)
    (d : list (string * value)) (homework : value) (rest : list value) :
  http w = HttpReturns r → status_code r = 200 → json r = Some (VDict d) →
  dict_lookup "homeworks" d = Some (VList (homework :: rest)) →
  is_Some (dict_lookup "current_date" d) →
  (fetch_and_format w ts).2
  = match (parse_status homework).2 with
    | inl error => inl error
    | inr status_str => inr (VDict d, status_str)
    end.
Proof.
  intros Hhttp Hcode Hjson Hh [date Hdate]. unfold fetch_and_format.
  rewrite get_api_answer_cases, Hhttp, Hcode, Hjson. cbv zeta. simpl.
  unfold check_response. rewrite !dict_contains_lookup, Hh, Hdate. simpl.
  by destruct (parse_status homework) as [t [e|s]].
Qed.

(** X24: an answer whose list of homeworks is empty makes the cycle log
    at info severity and raise [NoHomeworkInfo]; the error message of the
    cycle is about it. *)
Theorem empty_homeworks_is_an_error (w : world) (st : locals) (r : response)
    (d : list (string * value)) :
  http w = HttpReturns r → status_code r = 200 → json r = Some (VDict d) →
  dict_lookup "homeworks" d = Some (VList []) →
  is_Some (dict_lookup "current_date" d) →
  fetch_and_format w (current_timestamp st)
  = ([HttpGet ENDPOINT HEADERS
        [("from_date", if truthy (current_timestamp st)
                       then current_timestamp st else VInt (clock w))];
      Log INFO "Не найдено информации о домашней работе."],
     inl (NoHomeworkInfo "Не найдено информации о домашней работе."))
  ∧ formatted_message ErrorMessage w st
    = Some ("Сбой в работе программы: "
            +:+ "Не найдено информации о домашней работе.").
Proof.
  intros Hhttp Hcode Hjson Hh [date Hdate].
  assert (fetch_and_format w (current_timestamp st)
          = ([HttpGet ENDPOINT HEADERS
                [("from_date", if truthy (current_timestamp st)
                               then current_timestamp st
                               else VInt (clock w))];
              Log INFO "Не найдено информации о домашней работе."],
             inl (NoHomeworkInfo "Не найдено информации о домашней работе.")))
    as Hrun.
  { unfold fetch_and_format.
    rewrite get_api_answer_cases, Hhttp, Hcode, Hjson. cbv zeta. simpl.
    unfold check_response. by rewrite !dict_contains_lookup, Hh, Hdate. }
  split; [done|]. unfold formatted_message.
  by rewrite try_suite_fetch_and_format, Hrun.
Qed.

(** X25: with the tokens there and the [Bot] object built, the first
    request of [main] asks for what changed since the start of the program
    (or since the time of the request, should the clock have given 0 at the
    start); when the constructor of line 116 raises instead, [main] ends
    there and makes no request. *)
Theorem main_first_request (start : Z) (w : world) (ws : list world) :
  check_tokens = true →
  match Bot TELEGRAM_TOKEN with
  | None =>
      requested_params (main start (w :: ws)).1
      = Some [("from_date",
               if start =? 0 then VInt (clock w) else VInt start)]
  | Some error => main start (w :: ws) = ([], NoBot error)
  end.
Proof.
  intros Htokens. unfold main. rewrite Htokens.
  destruct (Bot TELEGRAM_TOKEN) as [error|]; [done|].
  cbv zeta. rewrite poll_loop_cons.
  destruct (cycle_first_request w (Locals (VInt start) None None))
    as (rest & Htrace & _).
  destruct (cycle w (Locals (VInt start) None None))
    as [st1 [t1 [error|[]]]]; simpl in Htrace; subst t1.
  - simpl. by destruct (start =? 0).
  - destruct (poll_loop ws st1) as [st2 [t2 r]]. simpl.
    by destruct (start =? 0).
Qed.

(** X26: [main] ends in [sys.exit] exactly when one of the three tokens is
    absent or empty; it then has done nothing but log critically.  Past
    the check nothing exits: the run is still polling or was ended by an
    unhandled exception. *)
Theorem sys_exit_only_at_startup (start : Z) (ws : list world) :
  (∃ arg, (main start ws).2 = SysExit arg) ↔
  (truthy PRACTICUM_TOKEN = false ∨ truthy TELEGRAM_TOKEN = false
   ∨ truthy TELEGRAM_CHAT_ID = false).
Proof.
  unfold main, check_tokens, py_all. simpl.
  destruct (truthy PRACTICUM_TOKEN), (truthy TELEGRAM_TOKEN),
    (truthy TELEGRAM_CHAT_ID); simpl;
    try (split; [intros _; tauto|intros _; by eexists]).
  split; [|by intros [?|[?|?]]].
  destruct (Bot TELEGRAM_TOKEN) as [error|]; [by intros [arg ?]|].
  destruct (poll_loop ws _) as [st2 [t2 [e|[]]]]; by intros [arg ?].
Qed.

(** X18: with the tokens there and the [Bot] object built, as long as
    Telegram takes the error messages [main] never ends, whatever the API
    answers and whatever the cycles raise: after any number of cycles it is
    still polling. *)
Theorem main_keeps_polling (start : Z) (ws : list world) :
  check_tokens = true → Bot TELEGRAM_TOKEN = None →
  (∀ w, w ∈ ws → bot_error w = None) →
  ∃ st, (main start ws).2 = Polling st.
Proof.
  intros Htokens Hbuilt Hbot. unfold main. rewrite Htokens, Hbuilt. cbv zeta.
  pose proof (poll_loop_goes_on ws (Locals (VInt start) None None) Hbot)
    as Hgoes.
  destruct (poll_loop ws (Locals (VInt start) None None))
    as [st [t [error|[]]]]; [done|].
  by exists st.
Qed.

(** X27: [last_message] survives the cycles that fail: when the status that
    was last sent comes back after a cycle whose [try] suite raised, the
    bot is not called with it again. *)
Theorem status_after_failure_not_resent (w_err w_ok : world) (st : locals)
    (m : string) (error : exn) :
  last_message st = Some m →
  (try_suite w_err st).2.2 = inl error →
  formatted_message StatusMessage w_ok (cycle w_err st).1 = Some m →
  last_message (cycle w_err st).1 = Some m
  ∧ bot_calls (cycle w_ok (cycle w_err st).1).2.1 = 0%nat
  ∧ (cycle w_ok (cycle w_err st).1).2.2 = inr tt.
Proof.
  intros Hlast Hraise Hagain.
  assert (last_message (cycle w_err st).1 = Some m) as Hkept.
  { pose proof (try_suite_raises_keeps_locals _ _ _ Hraise) as Hst.
    rewrite cycle_unfold.
    destruct (try_suite w_err st) as [st1 [t1 [e|[]]]]; [|done].
    simpl in Hst. subst st1.
    pose proof (except_suite_keeps w_err e st) as [_ Hmessage].
    destruct (except_suite w_err e st) as [st2 [t2 r2]]. simpl in *.
    by rewrite Hmessage. }
  destruct (known_status_cycle w_ok (cycle w_err st).1 m Hkept Hagain)
    as (? & ? & _). done.
Qed.

End Runs.

(** * The further properties on the sample inputs *)

Section MoreSamples.
#[local] Existing Instance sample_builtins.

Lemma get_api_answer_status_not_reported_witness :
  get_api_answer (K:=sample_constants) not_found_world (VInt 1500)
  = get_api_answer (K:=sample_constants) server_error_world (VInt 1500).
Proof.
  rewrite (get_api_answer_status_not_reported (K:=sample_constants)
             not_found_world (VInt 1500) (Response 404 None));
    [|reflexivity|simpl; lia].
  rewrite (get_api_answer_status_not_reported (K:=sample_constants)
             server_error_world (VInt 1500)
             (Response 500 (Some approved_body)));
    [|reflexivity|simpl; lia].
  reflexivity.
Defined.

(** A body nested too deep: the [RecursionError] of [.json()] is not a
    [JSONDecodeError] and leaves [get_api_answer] as it is; the loop catches
    it and goes on. *)
Lemma get_api_answer_one_request_witness :
  (get_api_answer (K:=sample_constants) too_deep_world (VInt 1500)).2
  = inl (OtherException "RecursionError"
           "maximum recursion depth exceeded while decoding a JSON array")
  ∧ http too_deep_world
    = HttpReturnsBroken 200
        (OtherException "RecursionError"
           "maximum recursion depth exceeded while decoding a JSON array")
  ∧ (cycle (K:=sample_constants) too_deep_world start_locals).2.2 = inr tt.
Proof.
  split; [reflexivity|].
  destruct (get_api_answer_one_request (K:=sample_constants) too_deep_world
              (VInt 1500)) as (_ & _ & Herrors).
  destruct (Herrors (OtherException "RecursionError"
              "maximum recursion depth exceeded while decoding a JSON array")
              eq_refl) as [[msg Hmsg]|[Hhttp _]]; [discriminate Hmsg|].
  split; [exact Hhttp|]. vm_compute. reflexivity.
Defined.

Lemma check_response_not_a_dict_witness :
  check_response (VList [proj1_approved])
  = raise (TypeError "Получен некорректный тип данных от сервиса API.").
Proof. apply check_response_not_a_dict; discriminate. Defined.

Lemma check_response_homeworks_not_a_list_witness :
  check_response
    (VDict [("homeworks", proj1_approved); ("current_date", VInt 1000)])
  = raise (TypeError "В ответе сервиса API нет списка домашних работ.").
Proof.
  apply (check_response_homeworks_not_a_list _ proj1_approved).
  - reflexivity.
  - exists (VInt 1000). reflexivity.
  - discriminate.
Defined.

Lemma parse_status_missing_key_witness :
  parse_status (K:=sample_constants) (VDict [("status", VStr "approved")])
  = ([Log ERROR "Не найдено имя домашней работы в ответе API."],
     inl (KeyError "Не найдено имя домашней работы в ответе API."))
  ∧ parse_status (K:=sample_constants)
      (VDict [("homework_name", VStr "proj1")])
    = ([Log ERROR "Не найден статус домашней работы в ответе API."],
       inl (KeyError "Не найден статус домашней работы в ответе API.")).
Proof.
  split.
  - apply (parse_status_missing_key (K:=sample_constants)). reflexivity.
  - apply (parse_status_missing_key (K:=sample_constants)).
    + exists (VStr "proj1"). reflexivity.
    + reflexivity.
Defined.

Lemma parse_status_unknown_status_witness :
  parse_status (K:=sample_constants) proj1_unknown
  = ([Log ERROR "Недокументированный статус домашней работы в ответе API."],
     inl (KeyError "Недокументированный статус домашней работы в ответе API.")).
Proof.
  apply (parse_status_unknown_status (K:=sample_constants) _ (VStr "lost")).
  - exists (VStr "proj1"). reflexivity.
  - reflexivity.
  - intros s [= <-]. vm_compute. reflexivity.
  - discriminate.
  - discriminate.
Defined.

Lemma parse_status_returns_only_documented_witness :
  (parse_status (K:=sample_constants) proj1_approved).1 = []
  ∧ ∃ d name s verdict,
      proj1_approved = VDict d ∧ dict_lookup "homework_name" d = Some name
      ∧ dict_lookup "status" d = Some (VStr s)
      ∧ HOMEWORK_STATUSES (Constants:=sample_constants) !! s = Some verdict
      ∧ approved_message
        = "Изменился статус проверки работы " +:+ dq
          +:+ py_str name +:+ dq +:+ ". " +:+ verdict.
Proof.
  apply (parse_status_returns_only_documented (K:=sample_constants)).
  vm_compute. reflexivity.
Defined.

Lemma parse_status_builtin_errors_witness :
  (∃ msg, parse_status (K:=sample_constants) (VStr "proj1")
          = raise (AttributeError msg))
  ∧ (∃ msg,
       parse_status (K:=sample_constants)
         (VDict [("homework_name", VStr "proj1"); ("status", VList [])])
       = raise (TypeError msg)).
Proof.
  split.
  - apply (parse_status_builtin_errors (K:=sample_constants)). discriminate.
  - apply (proj2 (parse_status_builtin_errors (K:=sample_constants) _)
             [("homework_name", VStr "proj1"); ("status", VList [])]
             (VList [])).
    + reflexivity.
    + exists (VStr "proj1"). reflexivity.
    + reflexivity.
    + left. exists []. reflexivity.
Defined.

Lemma clean_cycle_advances_timestamp_witness :
  ∃ r d date,
    http approved_world = HttpReturns r ∧ json r = Some (VDict d)
    ∧ dict_lookup "current_date" d = Some date
    ∧ current_timestamp
        (cycle (K:=sample_constants) approved_world start_locals).1 = date
    ∧ ∀ w', requested_params
              (cycle (K:=sample_constants) w'
                 (cycle (K:=sample_constants) approved_world start_locals).1).2.1
            = Some [("from_date",
                     if truthy date then date else VInt (clock w'))].
Proof.
  apply (clean_cycle_advances_timestamp (K:=sample_constants)).
  vm_compute. reflexivity.
Defined.

Lemma caught_exception_is_logged_witness :
  Log ERROR no_homework_message
  ∈ (cycle (K:=sample_constants) empty_world start_locals).2.1
  ∧ (bot_error empty_world = None →
     (cycle (K:=sample_constants) empty_world start_locals).2.2 = inr tt).
Proof.
  apply (caught_exception_is_logged (K:=sample_constants) empty_world
           start_locals
           (NoHomeworkInfo "Не найдено информации о домашней работе.")).
  vm_compute. reflexivity.
Defined.

Lemma main_keeps_polling_witness :
  ∃ st,
    (main (K:=sample_constants) 1500
       [api_down_world; not_json_world; empty_world; approved_world]).2
    = Polling st.
Proof.
  apply (main_keeps_polling (K:=sample_constants)).
  - reflexivity.
  - reflexivity.
  - intros w Hin.
    repeat (apply elem_of_cons in Hin as [->|Hin]; [reflexivity|]).
    by apply elem_of_nil in Hin.
Defined.

Lemma unchanged_status_never_resent_witness :
  let run :=
    poll_loop (K:=sample_constants)
      [approved_world; approved_world; approved_world] approved_sent_locals in
  run.2.2 = inr tt ∧ bot_calls run.2.1 = 0%nat
  ∧ last_message run.1 = Some approved_message
  ∧ last_error run.1 = None.
Proof.
  apply (unchanged_status_never_resent (K:=sample_constants)
           [approved_world; approved_world; approved_world]
           approved_sent_locals approved_message).
  - reflexivity.
  - intros w st' Hin. unfold formatted_message.
    rewrite (fetch_and_format_result_any_timestamp w _ VNone).
    repeat (apply elem_of_cons in Hin as [->|Hin];
            [vm_compute; reflexivity|]).
    by apply elem_of_nil in Hin.
Defined.

Lemma repeated_error_notified_once_witness :
  let run :=
    poll_loop (K:=sample_constants)
      [api_down_world; api_down_world; api_down_world] start_locals in
  run.2.2 = inr tt ∧ bot_calls run.2.1 = 1%nat
  ∧ sends api_down_message run.2.1 = 1%nat
  ∧ last_error run.1 = Some api_down_message.
Proof.
  apply (repeated_error_notified_once (K:=sample_constants) api_down_world
           [api_down_world; api_down_world] start_locals
           (GetApiError "Сбой в работе API сервиса: Connection refused")).
  - intros w ts Hin.
    rewrite (fetch_and_format_result_any_timestamp w _ VNone).
    repeat (apply elem_of_cons in Hin as [->|Hin];
            [split; vm_compute; reflexivity|]).
    by apply elem_of_nil in Hin.
  - discriminate.
Defined.

Lemma last_sent_never_cleared_witness :
  is_Some
    (last_sent StatusMessage
       (poll_loop (K:=sample_constants)
          [empty_world; all_down_world; approved_world]
          approved_sent_locals).1).
Proof.
  apply (last_sent_never_cleared (K:=sample_constants)).
  exists approved_message. reflexivity.
Defined.

Lemma recurring_error_not_renotified_witness :
  let st := Locals (VInt 1500) None (Some no_homework_message) in
  let st1 := (cycle (K:=sample_constants) approved_world st).1 in
  last_error st1 = Some no_homework_message
  ∧ sends no_homework_message
      (cycle (K:=sample_constants) empty_world st1).2.1 = 0%nat
  ∧ (cycle (K:=sample_constants) empty_world st1).2.2 = inr tt.
Proof.
  apply (recurring_error_not_renotified (K:=sample_constants)).
  - reflexivity.
  - vm_compute. reflexivity.
  - vm_compute. reflexivity.
Defined.

Lemma only_first_homework_matters_witness :
  (fetch_and_format (K:=sample_constants) two_homeworks_world (VInt 1500)).2
  = inr (two_homeworks_body, approved_message).
Proof.
  rewrite (only_first_homework_matters (K:=sample_constants)
             two_homeworks_world (VInt 1500)
             (Response 200 (Some two_homeworks_body))
             [("homeworks", VList [proj1_approved; proj2_rejected]);
              ("current_date", VInt 1000)]
             proj1_approved [proj2_rejected]).
  - vm_compute. reflexivity.
  - reflexivity.
  - reflexivity.
  - reflexivity.
  - reflexivity.
  - exists (VInt 1000). reflexivity.
Defined.

Lemma empty_homeworks_is_an_error_witness :
  formatted_message (K:=sample_constants) ErrorMessage empty_world
    start_locals
  = Some no_homework_message.
Proof.
  apply (empty_homeworks_is_an_error (K:=sample_constants) empty_world
           start_locals (Response 200 (Some empty_body))
           [("homeworks", VList []); ("current_date", VInt 1000)]).
  - reflexivity.
  - reflexivity.
  - reflexivity.
  - reflexivity.
  - exists (VInt 1000). reflexivity.
Defined.

Lemma main_first_request_witness :
  requested_params
    (main (K:=sample_constants) 1500 [approved_world; empty_world]).1
  = Some [("from_date", VInt 1500)]
  ∧ main (K:=malformed_token_constants) 1500 [approved_world; empty_world]
    = ([], NoBot (InvalidToken "Invalid token")).
Proof.
  split.
  - exact (main_first_request (K:=sample_constants) 1500 approved_world
             [empty_world] eq_refl).
  - exact (main_first_request (K:=malformed_token_constants) 1500
             approved_world [empty_world] eq_refl).
Defined.

Lemma status_after_failure_not_resent_witness :
  let st1 := (cycle (K:=sample_constants) api_down_world
                approved_sent_locals).1 in
  last_message st1 = Some approved_message
  ∧ bot_calls (cycle (K:=sample_constants) approved_world st1).2.1 = 0%nat
  ∧ (cycle (K:=sample_constants) approved_world st1).2.2 = inr tt.
Proof.
  apply (status_after_failure_not_resent (K:=sample_constants)
           api_down_world approved_world approved_sent_locals
           approved_message
           (GetApiError "Сбой в работе API сервиса: Connection refused")).
  - reflexivity.
  - vm_compute. reflexivity.
  - vm_compute. reflexivity.
Defined.

End MoreSamples.
